(** * RMG News AI dashboard: the API client and the dashboard page

    A shallow embedding of the front-end of the repository:
    - [api.ts] (the fetch wrapper [fetchWithTimeout] and the [api] object),
    - [frontend/src/app/page.tsx] (the [Home] component: its state, its
      event handlers and the page-number window of the pagination bar),
    followed by the properties of the specification that concern them.

    Modelling decisions, once and for all:
    - JavaScript numbers that hold counts, pages, totals, HTTP statuses and
      millisecond durations are integers ([Z]); numbers that hold scores are
      rationals ([Q]).
    - A JavaScript object used as a bag of properties (an article, an error)
      is a finite map from property names to values ([gmap string JsVal]);
      reading an absent property gives [VUndefined].
    - Strings are sequences of code units below 256.
    - An [async] function is a computation in a state-and-exception monad
      [Eff]: the state is what the function can change (the log of issued
      HTTP calls for the API client, that log and the React state for the
      page), a rejected promise is the completion [Thrown].
    - The backend and the network are an arbitrary function [network] that
      answers the [n]-th issued call; every theorem holds for all of them.
    - [console.log] and [console.error] have no effect on any of this and
      are left out. *)

From Stdlib Require Import ZArith QArith Lia.
From stdpp Require Import base strings pretty list gmap.

Local Open Scope string_scope.
Local Open Scope Z_scope.
Local Open Scope list_scope.

(* ================================================================== *)
(** * JavaScript values, objects, strings                              *)
(* ================================================================== *)

Inductive JsVal : Type :=
| VUndefined
| VNull
| VBool (b : bool)
| VNum (q : Q)
| VStr (s : string).

(** A plain object: own properties by name. *)
Abbreviation JsObject := (gmap string JsVal).

(** [o.k] *)
Definition prop (o : JsObject) (k : string) : JsVal :=
  match o !! k with
  | Some v => v
  | None => VUndefined
  end.

(** Truthiness of a string: the empty string is the only falsy one. *)
Definition truthy_string (s : string) : bool :=
  match s with
  | EmptyString => false
  | String _ _ => true
  end.

(** Truthiness of an optional string argument ([undefined] is falsy). *)
Definition truthy_arg (a : option string) : bool :=
  match a with
  | Some s => truthy_string s
  | None => false
  end.

(** White space as [String.prototype.trim] sees it, among the code units
    below 256: TAB, LF, VT, FF, CR, SPACE and NO-BREAK SPACE. *)
Definition is_js_whitespace (c : Ascii.ascii) : bool :=
  let n := Ascii.N_of_ascii c in
  ((n =? 9) || (n =? 10) || (n =? 11) || (n =? 12) || (n =? 13)
   || (n =? 32) || (n =? 160))%N.

Fixpoint trimStart (s : string) : string :=
  match s with
  | EmptyString => EmptyString
  | String c s' => if is_js_whitespace c then trimStart s' else s
  end.

Definition trimEnd (s : string) : string :=
  String.rev (trimStart (String.rev s)).

(** [s.trim()] *)
Definition trim (s : string) : string := trimEnd (trimStart s).

(** Every code unit of [s] is white space (true of the empty string). *)
Fixpoint all_whitespace (s : string) : bool :=
  match s with
  | EmptyString => true
  | String c s' => is_js_whitespace c && all_whitespace s'
  end.

(** [new Error(message)] and the other error objects the platform throws:
    the object carries its [name] and its [message]. *)
Definition mkError (name message : string) : JsObject :=
  <["message" := VStr message]> (<["name" := VStr name]> ∅).

Definition Error (message : string) : JsObject := mkError "Error" message.

(** [error.name === 'AbortError'] (every thrown value of the model is an
    [Error] instance, so [error instanceof Error] holds of all of them). *)
Definition is_AbortError (error : JsObject) : bool :=
  match prop error "name" with
  | VStr n => String.eqb n "AbortError"
  | _ => false
  end.

Definition message_of (error : JsObject) : string :=
  match prop error "message" with
  | VStr m => m
  | _ => ""
  end.

(** [needle] occurs in [s]. *)
Definition embeds (needle s : string) : Prop :=
  exists pre post : string, s = pre +:+ needle +:+ post.

(** [c.toLowerCase()] for one code unit below 256: the letters A-Z and
    the capital letters of the range 192-222 (all but the multiplication
    sign, 215) move up by 32; everything else stays. *)
Definition toLowerCase_unit (c : Ascii.ascii) : Ascii.ascii :=
  let n := Ascii.N_of_ascii c in
  if (((65 <=? n) && (n <=? 90))
      || ((192 <=? n) && (n <=? 222) && negb (n =? 215)))%N
  then Ascii.ascii_of_N (n + 32)
  else c.

(** [s.toLowerCase()] *)
Fixpoint toLowerCase (s : string) : string :=
  match s with
  | EmptyString => EmptyString
  | String c s' => String (toLowerCase_unit c) (toLowerCase s')
  end.

(** A JavaScript number that is an integer or [NaN] ([None]): what
    [Date.prototype.getTime] returns and what the arithmetic on it gives. *)
Abbreviation JsInt := (option Z).

(** [a - b] *)
Definition js_sub (a b : JsInt) : JsInt :=
  match a, b with
  | Some x, Some y => Some (x - y)
  | _, _ => None
  end.

(** [Math.floor(a / d)] for a positive integer [d]. *)
Definition js_floor_div (a : JsInt) (d : Z) : JsInt :=
  match a with
  | Some x => Some (x / d)
  | None => None
  end.

(** [a < b]: false when [a] is [NaN]. *)
Definition js_lt (a : JsInt) (b : Z) : bool :=
  match a with
  | Some x => x <? b
  | None => false
  end.

(** [`${a}`] *)
Definition js_toString (a : JsInt) : string :=
  match a with
  | Some x => pretty x
  | None => "NaN"
  end.

(* ================================================================== *)
(** * Asynchronous computations                                        *)
(* ================================================================== *)

(** How an awaited promise ends: fulfilled with a value, or rejected. *)
Inductive Completion (A : Type) : Type :=
| Normal (a : A)
| Thrown (e : JsObject).
Arguments Normal {A} a.
Arguments Thrown {A} e.

Definition Eff (S A : Type) : Type := S -> Completion A * S.

Definition ret {S A : Type} (a : A) : Eff S A := fun s => (Normal a, s).

Definition throw {S A : Type} (e : JsObject) : Eff S A := fun s => (Thrown e, s).

Definition bind {S A B : Type} (m : Eff S A) (k : A -> Eff S B) : Eff S B :=
  fun s =>
    match m s with
    | (Normal a, s') => k a s'
    | (Thrown e, s') => (Thrown e, s')
    end.

Notation "'let*' x ':=' m 'in' k" := (bind m (fun x => k))
  (at level 10, x name, m at level 100, k at level 200).
Notation "m ;;; k" := (bind m (fun _ => k))
  (at level 100, k at level 200, right associativity).

(** [try { body } catch (err) { handler }] *)
Definition try_catch {S A : Type} (body : Eff S A) (handler : JsObject -> Eff S A)
  : Eff S A :=
  fun s =>
    match body s with
    | (Normal a, s') => (Normal a, s')
    | (Thrown e, s') => handler e s'
    end.

(** [try { body } finally { final }]: [final] always runs; an exception
    of [final] replaces the completion of [body]. *)
Definition try_finally {S A : Type} (body : Eff S A) (final : Eff S unit) : Eff S A :=
  fun s =>
    match body s with
    | (c, s') =>
        match final s' with
        | (Normal _, s'') => (c, s'')
        | (Thrown e, s'') => (Thrown e, s'')
        end
    end.

(** The entries of the array [Promise.allSettled] resolves to. *)
Inductive Settled (A : Type) : Type :=
| Fulfilled (value : A)
| Rejected (reason : JsObject).
Arguments Fulfilled {A} value.
Arguments Rejected {A} reason.

Definition settle {S A : Type} (p : Eff S A) : Eff S (Settled A) :=
  fun s =>
    match p s with
    | (Normal a, s') => (Normal (Fulfilled a), s')
    | (Thrown e, s') => (Normal (Rejected e), s')
    end.

(** [await Promise.allSettled(tasks)].  The tasks were started in array
    order, so their HTTP calls are issued in that order; each task's result
    depends only on the answer to its own call, so running them one after
    the other gives the array the concurrent run gives. *)
Fixpoint allSettled {S A : Type} (tasks : list (Eff S A)) : Eff S (list (Settled A)) :=
  match tasks with
  | [] => ret []
  | p :: rest =>
      let* r := settle p in
      let* rs := allSettled rest in
      ret (r :: rs)
  end.

(* ================================================================== *)
(** * api.ts: response shapes                                          *)
(* ================================================================== *)

(** The fields the interface [NewsArticle] declares.  An article itself is
    kept as the object the backend sent ([JsObject]): the page spreads it
    into new objects and adds properties of its own. *)
Definition NewsArticle_fields : list string :=
  [ "id"; "title"; "content"; "summary"; "url"; "source"; "source_url";
    "author"; "published_at"; "created_at"; "updated_at";
    "ai_summary"; "market_impact"; "confidence_score"; "is_processed" ].

Module NewsSource.
Record t : Type := { name : string; url : string; base_url : string }.
End NewsSource.

Module SourcesResponse.
Record t : Type := { sources : gmap string NewsSource.t; total : Z }.
End SourcesResponse.

Module NewsResponse.
Record t : Type :=
  { articles : list JsObject; total : Z; page : Z; per_page : Z }.
End NewsResponse.

Module Topic.
Record t : Type :=
  { id : Z; name : string; category : string; is_trending : bool;
    trend_score : Q; created_at : string }.
End Topic.

Module TrendingTopicsResponse.
Record t : Type := { topics : list Topic.t; updated_at : string }.
End TrendingTopicsResponse.

Module MarketTrend.
Record t : Type :=
  { id : Z; metric_name : string; metric_value : Q;
    metric_unit : option string; category : string; time_period : string;
    recorded_at : string; source : option string; confidence : option Q }.
End MarketTrend.

Module MarketInsightsResponse.
Record sentiment : Type :=
  { positive : string; negative : string; neutral : string }.
Record t : Type :=
  { sentiment_overview : sentiment; trending_topics : list Topic.t;
    market_trends : list MarketTrend.t; total_articles : Z;
    last_updated : string }.
End MarketInsightsResponse.

Module NewsAnalysis.
Record t : Type :=
  { id : Z; article_id : Z; key_insights : string; market_impact : string;
    industry_sectors : string; geographic_impact : string;
    agno_analysis_id : string; agno_confidence : Q; created_at : string }.
End NewsAnalysis.

(** The anonymous result type of [api.fetchNewsFromSources]. *)
Module FetchNewsResult.
Record t : Type :=
  { message : string; results : gmap string Z; total_articles : Z;
    timestamp : string }.
End FetchNewsResult.

(** The declared type of a response body: what [response.json()] is typed
    to resolve to at each call site of [fetchWithTimeout]. *)
Inductive Shape : Type :=
| SNews | SSources | SFetchNews | STrending | SInsights | SAnalysis
| SAny.

Definition payload (s : Shape) : Type :=
  match s with
  | SNews => NewsResponse.t
  | SSources => SourcesResponse.t
  | SFetchNews => FetchNewsResult.t
  | STrending => TrendingTopicsResponse.t
  | SInsights => MarketInsightsResponse.t
  | SAnalysis => NewsAnalysis.t
  | SAny => JsVal
  end.

(* ================================================================== *)
(** * The platform: fetch, Response, abort signals                     *)
(* ================================================================== *)

Inductive Method : Type := GET | POST.

(** [RequestInit], as far as the client uses it.  [body] is the object
    handed to [JSON.stringify], properties in the order written. *)
Record RequestInit : Type :=
  { method : Method;
    headers : list (string * string);
    body : option (list (string * JsVal)) }.

(** [{}] *)
Definition no_options : RequestInit :=
  {| method := GET; headers := []; body := None |}.

(** One call of [fetch]: the address (the text before [?]), the
    [URLSearchParams] after it (left as pairs, in order; empty when the
    address has no [?]), the options, and the delay in milliseconds after
    which the signal passed with the call aborts it. *)
Record HttpCall : Type :=
  { url : string;
    params : list (string * string);
    init : RequestInit;
    abort_after : Z }.

Record Response (s : Shape) : Type :=
  { status : Z;
    statusText : string;
    json_body : option (payload s) }.
Arguments status {s} _.
Arguments statusText {s} _.
Arguments json_body {s} _.

(** [response.ok]: the status is in the range 200-299. *)
Definition ok {s : Shape} (response : Response s) : bool :=
  (200 <=? status response) && (status response <=? 299).

(** What the network does with one call: after [latency] milliseconds it
    either delivers a response or fails (the [fetch] promise rejects with
    the given error object, a [TypeError] in browsers). *)
Record NetReply (s : Shape) : Type :=
  { latency : Z;
    outcome : Response s + JsObject }.
Arguments latency {s} _.
Arguments outcome {s} _.

(** The state of the API client: the calls issued so far, oldest first. *)
Abbreviation Net := (Eff (list HttpCall)).

Definition API_BASE_URL : string := "http://localhost:8000".

(** [if (value) params.append(key, value)] for an optional string. *)
Definition append_if_truthy (params : list (string * string)) (key : string)
    (value : option string) : list (string * string) :=
  match value with
  | Some v => if truthy_string v then params ++ [(key, v)] else params
  | None => params
  end.

Definition AbortError : JsObject :=
  mkError "AbortError" "The operation was aborted.".

(** The error [response.json()] rejects with for a body that is not JSON:
    a [SyntaxError].  Its message is the engine's and depends on the body;
    the object records the name only. *)
Definition SyntaxError : JsObject :=
  <["name" := VStr "SyntaxError"]> ∅.

Module api.
Section Client.

(** The backend and the network between it and the browser: the reply to
    the call issued when [n] calls had been issued before it. *)
Variable network : forall s : Shape, nat -> HttpCall -> NetReply s.

(** [fetch(url, { ...options, signal })], where [signal] belongs to a
    controller that a timer aborts after [abort_after] milliseconds: the
    call is logged; if the network has not answered when the timer fires,
    the promise rejects with an [AbortError]. *)
Definition fetch (s : Shape) (call : HttpCall) : Net (Response s) :=
  fun log =>
    let reply := network s (length log) call in
    let log' := log ++ [call] in
    if abort_after call <=? latency reply
    then (Thrown AbortError, log')
    else match outcome reply with
         | inl response => (Normal response, log')
         | inr error => (Thrown error, log')
         end.

(** [response.json()]: rejects when the body is not JSON. *)
Definition json {s : Shape} (response : Response s) : Net (payload s) :=
  match json_body response with
  | Some v => ret v
  | None => throw SyntaxError
  end.

(* ---------------------------------------------------------------- *)
(** ** fetchWithTimeout                                              *)

Definition fetchWithTimeout (s : Shape) (url : string)
    (params : list (string * string)) (options : RequestInit)
    (timeout : Z) : Net (Response s) :=
  try_catch
    (let* response :=
       fetch s {| url := url; params := params; init := options;
                  abort_after := timeout |} in
     ret response)
    (fun error =>
       if is_AbortError error
       then throw (Error ("Request timeout after " +:+ pretty timeout +:+ "ms"))
       else throw error).

(* ---------------------------------------------------------------- *)
(** ** The methods of [api]

    Parameters with a default value in the source ([page = 1],
    [perPage = 10], [articlesPerSource = 15], ...) are ordinary
    parameters here: the page passes all of them at every call. *)

Definition getNews (query : option string) (page perPage : Z)
    (source : option string) : Net NewsResponse.t :=
  let params := [("page", pretty page); ("per_page", pretty perPage)] in
  let params := append_if_truthy params "query" query in
  let params := append_if_truthy params "source" source in
  let* response :=
    fetchWithTimeout SNews (API_BASE_URL +:+ "/api/news") params
      no_options 45000 in
  if negb (ok response)
  then throw (Error ("Failed to fetch news: " +:+ pretty (status response)
                     +:+ " " +:+ statusText response))
  else json response.

Definition getNewsBySource (sourceId : string) (page perPage : Z)
    : Net NewsResponse.t :=
  let params := [("page", pretty page); ("per_page", pretty perPage)] in
  let* response :=
    fetchWithTimeout SNews (API_BASE_URL +:+ "/api/news/sources/" +:+ sourceId)
      params no_options 45000 in
  if negb (ok response)
  then throw (Error ("Failed to fetch news from source: "
                     +:+ pretty (status response)
                     +:+ " " +:+ statusText response))
  else json response.

Definition getSources : Net SourcesResponse.t :=
  let* response :=
    fetchWithTimeout SSources (API_BASE_URL +:+ "/api/sources") []
      no_options 15000 in
  if negb (ok response)
  then throw (Error ("Failed to fetch sources: " +:+ pretty (status response)
                     +:+ " " +:+ statusText response))
  else json response.

Definition fetchNewsFromSources (articlesPerSource : Z)
    : Net FetchNewsResult.t :=
  let* response :=
    fetchWithTimeout SFetchNews (API_BASE_URL +:+ "/api/fetch-news") []
      {| method := POST;
         headers := [("Content-Type", "application/json")];
         body := Some [("articles_per_source",
                        VNum (inject_Z articlesPerSource))] |}
      120000 in
  if negb (ok response)
  then throw (Error ("Failed to fetch news from sources: "
                     +:+ pretty (status response)
                     +:+ " " +:+ statusText response))
  else json response.

Definition getHeadlines (category country : string) (pageSize : Z)
    : Net NewsResponse.t :=
  let params := [("category", category); ("country", country);
                 ("page_size", pretty pageSize)] in
  let* response :=
    fetchWithTimeout SNews (API_BASE_URL +:+ "/api/headlines") params
      no_options 45000 in
  if negb (ok response)
  then throw (Error ("Failed to fetch headlines: " +:+ pretty (status response)
                     +:+ " " +:+ statusText response))
  else json response.

Definition getTrendingTopics (hoursBack : Z) : Net TrendingTopicsResponse.t :=
  let params := [("hours_back", pretty hoursBack)] in
  let* response :=
    fetchWithTimeout STrending (API_BASE_URL +:+ "/api/trending") params
      no_options 45000 in
  if negb (ok response)
  then throw (Error ("Failed to fetch trending topics: "
                     +:+ pretty (status response)
                     +:+ " " +:+ statusText response))
  else json response.

Definition getMarketInsights : Net MarketInsightsResponse.t :=
  let* response :=
    fetchWithTimeout SInsights (API_BASE_URL +:+ "/api/insights") []
      no_options 45000 in
  if negb (ok response)
  then throw (Error ("Failed to fetch market insights: "
                     +:+ pretty (status response)
                     +:+ " " +:+ statusText response))
  else json response.

(** The page passes [article.content] and [article.title], whatever
    values they are. *)
Definition analyzeArticle (articleText title : JsVal) : Net NewsAnalysis.t :=
  let* response :=
    fetchWithTimeout SAnalysis (API_BASE_URL +:+ "/api/analyze") []
      {| method := POST;
         headers := [("Content-Type", "application/json")];
         body := Some [("article_text", articleText); ("title", title)] |}
      60000 in
  if negb (ok response)
  then throw (Error ("Failed to analyze article: " +:+ pretty (status response)
                     +:+ " " +:+ statusText response))
  else json response.

Definition getSentimentAnalysis (text : string) : Net JsVal :=
  let params := [("text", text)] in
  let* response :=
    fetchWithTimeout SAny (API_BASE_URL +:+ "/api/sentiment") params
      no_options 45000 in
  if negb (ok response)
  then throw (Error ("Failed to analyze sentiment: "
                     +:+ pretty (status response)
                     +:+ " " +:+ statusText response))
  else json response.

Definition healthCheck : Net bool :=
  try_catch
    (let* response :=
       fetchWithTimeout SAny (API_BASE_URL +:+ "/health") [] no_options 20000 in
     ret (ok response))
    (fun error => ret false).

End Client.
End api.

(* ================================================================== *)
(** * page.tsx: the Home component                                     *)
(* ================================================================== *)

(** The React state of the component, one field per [useState]. *)
Record View : Type :=
  { searchQuery : string;
    newsArticles : list JsObject;
    sources : gmap string NewsSource.t;
    selectedSource : string;
    loading : bool;
    fetchingNews : bool;
    error : option string;
    currentPage : Z;
    totalPages : Z;
    totalArticles : Z }.

(** The initial values given to [useState]. *)
Definition initial_view : View :=
  {| searchQuery := ""; newsArticles := []; sources := ∅;
     selectedSource := "all"; loading := true; fetchingNews := false;
     error := None; currentPage := 1; totalPages := 1; totalArticles := 0 |}.

(** What a handler of the page can change: the React state and, through the
    API client, the log of issued calls. *)
Record World : Type := { view : View; calls : list HttpCall }.

Abbreviation Page := (Eff World).

Definition setState (f : View -> View) : Page unit :=
  fun w => (Normal tt, {| view := f (view w); calls := calls w |}).

(** [await] of an API-client promise from the page. *)
Definition await {A : Type} (m : Net A) : Page A :=
  fun w =>
    match m (calls w) with
    | (c, log) => (c, {| view := view w; calls := log |})
    end.

Definition setNewsArticles (x : list JsObject) : Page unit :=
  setState (fun v =>
    {| searchQuery := searchQuery v; newsArticles := x; sources := sources v;
       selectedSource := selectedSource v; loading := loading v;
       fetchingNews := fetchingNews v; error := error v;
       currentPage := currentPage v; totalPages := totalPages v;
       totalArticles := totalArticles v |}).

Definition setSources (x : gmap string NewsSource.t) : Page unit :=
  setState (fun v =>
    {| searchQuery := searchQuery v; newsArticles := newsArticles v; sources := x;
       selectedSource := selectedSource v; loading := loading v;
       fetchingNews := fetchingNews v; error := error v;
       currentPage := currentPage v; totalPages := totalPages v;
       totalArticles := totalArticles v |}).

Definition setSelectedSource (x : string) : Page unit :=
  setState (fun v =>
    {| searchQuery := searchQuery v; newsArticles := newsArticles v;
       sources := sources v; selectedSource := x; loading := loading v;
       fetchingNews := fetchingNews v; error := error v;
       currentPage := currentPage v; totalPages := totalPages v;
       totalArticles := totalArticles v |}).

Definition setLoading (x : bool) : Page unit :=
  setState (fun v =>
    {| searchQuery := searchQuery v; newsArticles := newsArticles v;
       sources := sources v; selectedSource := selectedSource v; loading := x;
       fetchingNews := fetchingNews v; error := error v;
       currentPage := currentPage v; totalPages := totalPages v;
       totalArticles := totalArticles v |}).

Definition setFetchingNews (x : bool) : Page unit :=
  setState (fun v =>
    {| searchQuery := searchQuery v; newsArticles := newsArticles v;
       sources := sources v; selectedSource := selectedSource v;
       loading := loading v; fetchingNews := x; error := error v;
       currentPage := currentPage v; totalPages := totalPages v;
       totalArticles := totalArticles v |}).

Definition setError (x : option string) : Page unit :=
  setState (fun v =>
    {| searchQuery := searchQuery v; newsArticles := newsArticles v;
       sources := sources v; selectedSource := selectedSource v;
       loading := loading v; fetchingNews := fetchingNews v; error := x;
       currentPage := currentPage v; totalPages := totalPages v;
       totalArticles := totalArticles v |}).

Definition setCurrentPage (x : Z) : Page unit :=
  setState (fun v =>
    {| searchQuery := searchQuery v; newsArticles := newsArticles v;
       sources := sources v; selectedSource := selectedSource v;
       loading := loading v; fetchingNews := fetchingNews v; error := error v;
       currentPage := x; totalPages := totalPages v;
       totalArticles := totalArticles v |}).

Definition setTotalPages (x : Z) : Page unit :=
  setState (fun v =>
    {| searchQuery := searchQuery v; newsArticles := newsArticles v;
       sources := sources v; selectedSource := selectedSource v;
       loading := loading v; fetchingNews := fetchingNews v; error := error v;
       currentPage := currentPage v; totalPages := x;
       totalArticles := totalArticles v |}).

Definition setTotalArticles (x : Z) : Page unit :=
  setState (fun v =>
    {| searchQuery := searchQuery v; newsArticles := newsArticles v;
       sources := sources v; selectedSource := selectedSource v;
       loading := loading v; fetchingNews := fetchingNews v; error := error v;
       currentPage := currentPage v; totalPages := totalPages v;
       totalArticles := x |}).

Definition articlesPerPage : Z := 10.

(** [Math.ceil(total / perPage)] on integers, [perPage > 0]. *)
Definition ceil_div (total perPage : Z) : Z := - ((- total) / perPage).

(** [{ ...article, aiSummary, marketImpact, confidence }] *)
Definition with_enrichment (article : JsObject)
    (aiSummary marketImpact confidence : JsVal) : JsObject :=
  <["confidence" := confidence]>
    (<["marketImpact" := marketImpact]>
       (<["aiSummary" := aiSummary]> article)).

(** [article && typeof article === 'object'], for a value that is an
    object: objects are truthy and their [typeof] is ['object']. *)
Definition is_object (article : JsObject) : bool := true.

(** [result.status === 'fulfilled' ? result.value : result.reason] *)
Definition value_or_reason (result : Settled JsObject) : JsObject :=
  match result with
  | Fulfilled value => value
  | Rejected reason => reason
  end.

Module Home.
Section Handlers.

Variable network : forall s : Shape, nat -> HttpCall -> NetReply s.

(** The state as it was in the render that created the handlers: a
    handler reads [searchQuery], [selectedSource] and [totalPages] from
    its closure, not from the state it is updating. *)
Variable rendered : View.

Definition fetchInitialData : Page unit :=
  try_finally
    (try_catch
       (setLoading true ;;;
        setError None ;;;
        let* isBackendHealthy := await (api.healthCheck network) in
        if negb isBackendHealthy
        then
          setError (Some "Backend server is not responding. Please ensure the backend is running on http://localhost:8000") ;;;
          setLoading false ;;;
          ret tt
        else
          try_catch
            (let* sourcesData := await (api.getSources network) in
             setSources (SourcesResponse.sources sourcesData))
            (fun err => setSources ∅))
       (fun err => setError (Some "Failed to load data. Please try again.")))
    (setLoading false).

(** The [async (article) => ...] mapped over the loaded articles. *)
Definition analyzeOne (article : JsObject) : Page JsObject :=
  try_catch
    (let* analysis :=
       await (api.analyzeArticle network (prop article "content")
                (prop article "title")) in
     ret (with_enrichment article
            (VStr (NewsAnalysis.key_insights analysis))
            (VStr (NewsAnalysis.market_impact analysis))
            (VNum (NewsAnalysis.agno_confidence analysis))))
    (fun err => ret (with_enrichment article VNull VNull VNull)).

Definition fetchNews (query : option string) (page : Z) : Page unit :=
  try_catch
    (setLoading true ;;;
     let* newsData := await (api.getNews network query page articlesPerPage None) in
     setNewsArticles (NewsResponse.articles newsData) ;;;
     setTotalArticles (NewsResponse.total newsData) ;;;
     setTotalPages (ceil_div (NewsResponse.total newsData) articlesPerPage) ;;;
     setCurrentPage page ;;;
     setLoading false ;;;
     if (0 <? length (NewsResponse.articles newsData))%nat
     then
       let* articlesWithAI :=
         allSettled (map analyzeOne (NewsResponse.articles newsData)) in
       let processedArticles :=
         filter (fun article => is_object article = true)
                (map value_or_reason articlesWithAI) in
       setNewsArticles processedArticles
     else ret tt)
    (fun err =>
       setError (Some "Failed to fetch news. Please try again.") ;;;
       setLoading false).

Definition fetchNewsBySource (sourceId : string) (page : Z) : Page unit :=
  try_finally
    (try_catch
       (setLoading true ;;;
        setError None ;;;
        let* newsData :=
          if String.eqb sourceId "all"
          then await (api.getNews network None page articlesPerPage None)
          else await (api.getNewsBySource network sourceId page articlesPerPage) in
        setNewsArticles (NewsResponse.articles newsData) ;;;
        setTotalArticles (NewsResponse.total newsData) ;;;
        setTotalPages (ceil_div (NewsResponse.total newsData) articlesPerPage) ;;;
        setCurrentPage page)
       (fun err => setError (Some "Failed to fetch news. Please try again.")))
    (setLoading false).

Definition fetchNewsFromSources : Page unit :=
  try_finally
    (try_catch
       (setFetchingNews true ;;;
        setError None ;;;
        let* result := await (api.fetchNewsFromSources network 15) in
        setCurrentPage 1 ;;;
        fetchNewsBySource (selectedSource rendered) 1 ;;;
        setError None)
       (fun err =>
          setError (Some "Failed to fetch news from sources. Please try again.")))
    (setFetchingNews false).

Definition handleSourceChange (sourceId : string) : Page unit :=
  setSelectedSource sourceId ;;;
  setCurrentPage 1 ;;;
  fetchNewsBySource sourceId 1.

(** [selectedSource === 'all' ? undefined : selectedSource] *)
Definition source_filter : option string :=
  if String.eqb (selectedSource rendered) "all"
  then None
  else Some (selectedSource rendered).

Definition handleSearch : Page unit :=
  if truthy_string (trim (searchQuery rendered))
  then
    try_finally
      (try_catch
         (setLoading true ;;;
          setCurrentPage 1 ;;;
          let* newsData :=
            await (api.getNews network (Some (searchQuery rendered)) 1
                     articlesPerPage source_filter) in
          setNewsArticles (NewsResponse.articles newsData) ;;;
          setTotalArticles (NewsResponse.total newsData) ;;;
          setTotalPages (ceil_div (NewsResponse.total newsData) articlesPerPage))
         (fun err => setError (Some "Failed to search news. Please try again.")))
      (setLoading false)
  else
    setCurrentPage 1 ;;;
    fetchNewsBySource (selectedSource rendered) 1.

Definition handleKeyPress (key : string) : Page unit :=
  if String.eqb key "Enter" then handleSearch else ret tt.

Definition handlePageChange (page : Z) : Page unit :=
  if (1 <=? page) && (page <=? totalPages rendered)
  then
    setCurrentPage page ;;;
    if truthy_string (trim (searchQuery rendered))
    then
      try_finally
        (try_catch
           (setLoading true ;;;
            let* newsData :=
              await (api.getNews network (Some (searchQuery rendered)) page
                       articlesPerPage source_filter) in
            setNewsArticles (NewsResponse.articles newsData))
           (fun err => setError (Some "Failed to fetch news. Please try again.")))
        (setLoading false)
    else fetchNewsBySource (selectedSource rendered) page
  else ret tt.

End Handlers.

(** ** The pagination bar *)

(** The bar is rendered when [totalPages > 1]. *)
Definition pagination_shown (totalPages : Z) : bool := 1 <? totalPages.

(** The number on the [i]-th button, [i] counted from 0. *)
Definition pageNum (currentPage totalPages i : Z) : Z :=
if totalPages <=? 5 then i + 1
else if currentPage <=? 3 then i + 1
else if totalPages - 2 <=? currentPage then totalPages - 4 + i
else currentPage - 2 + i.

(** [Array.from({ length: Math.min(5, totalPages) }, (_, i) => pageNum)] *)
Definition pageNumbers (currentPage totalPages : Z) : list Z :=
map (pageNum currentPage totalPages) (seqZ 0 (Z.min 5 totalPages)).

(** The page a click on "Previous" and on "Next" asks for, and when the
    two buttons are disabled. *)
Definition previous_target (currentPage : Z) : Z := currentPage - 1.

Definition previous_disabled (currentPage : Z) : bool := currentPage =? 1.

Definition next_target (currentPage : Z) : Z := currentPage + 1.

Definition next_disabled (currentPage totalPages : Z) : bool :=
currentPage =? totalPages.

(** The line "Showing [from] to [to] of [totalArticles] articles", rendered
    when [totalArticles > 0]. *)
Definition page_info_shown (totalArticles : Z) : bool := 0 <? totalArticles.

Definition showing_from (currentPage : Z) : Z :=
(currentPage - 1) * articlesPerPage + 1.

Definition showing_to (currentPage totalArticles : Z) : Z :=
Z.min (currentPage * articlesPerPage) totalArticles.

(** ** Formatting helpers *)

(** [formatTimeAgo(dateString)], given the two instants it compares:
    [date] is [new Date(dateString).getTime()], [NaN] for a string that is
    not a date, and [now] is [new Date().getTime()], both in
    milliseconds. *)
Definition formatTimeAgo (now : Z) (date : JsInt) : string :=
let diffInHours := js_floor_div (js_sub (Some now) date) (1000 * 60 * 60) in
if js_lt diffInHours 1 then "Just now"
else if js_lt diffInHours 24 then js_toString diffInHours +:+ " hours ago"
else
  let diffInDays := js_floor_div diffInHours 24 in
  js_toString diffInDays +:+ " days ago".

Definition getSentimentColor (sentiment : string) : string :=
let s := toLowerCase sentiment in
if String.eqb s "positive" then "text-green-600"
else if String.eqb s "negative" then "text-red-600"
else "text-yellow-600".

Definition getSentimentLabel (sentiment : string) : string :=
let s := toLowerCase sentiment in
if String.eqb s "positive" then "Positive"
else if String.eqb s "negative" then "Negative"
else "Neutral".

End Home.

(* ================================================================== *)
(** * Vocabulary of the specification                                  *)
(* ================================================================== *)

(** One invocation of a method of [api], with its arguments. *)
Inductive ApiCall : Type :=
| GetNews (query : option string) (page perPage : Z) (source : option string)
| GetNewsBySource (sourceId : string) (page perPage : Z)
| GetSources
| FetchNewsFromSources (articlesPerSource : Z)
| GetHeadlines (category country : string) (pageSize : Z)
| GetTrendingTopics (hoursBack : Z)
| GetMarketInsights
| AnalyzeArticle (articleText title : JsVal)
| GetSentimentAnalysis (text : string)
| HealthCheck.

Definition result_of (c : ApiCall) : Type :=
  match c with
  | GetNews _ _ _ _ | GetNewsBySource _ _ _ | GetHeadlines _ _ _ => NewsResponse.t
  | GetSources => SourcesResponse.t
  | FetchNewsFromSources _ => FetchNewsResult.t
  | GetTrendingTopics _ => TrendingTopicsResponse.t
  | GetMarketInsights => MarketInsightsResponse.t
  | AnalyzeArticle _ _ => NewsAnalysis.t
  | GetSentimentAnalysis _ => JsVal
  | HealthCheck => bool
  end.

Definition invoke (network : forall s : Shape, nat -> HttpCall -> NetReply s)
    (c : ApiCall) : Net (result_of c) :=
  match c with
  | GetNews query page perPage source => api.getNews network query page perPage source
  | GetNewsBySource sourceId page perPage =>
      api.getNewsBySource network sourceId page perPage
  | GetSources => api.getSources network
  | FetchNewsFromSources n => api.fetchNewsFromSources network n
  | GetHeadlines category country pageSize =>
      api.getHeadlines network category country pageSize
  | GetTrendingTopics hoursBack => api.getTrendingTopics network hoursBack
  | GetMarketInsights => api.getMarketInsights network
  | AnalyzeArticle articleText title => api.analyzeArticle network articleText title
  | GetSentimentAnalysis text => api.getSentimentAnalysis network text
  | HealthCheck => api.healthCheck network
  end.

(** The declared body type of the response a method reads. *)
Definition shape_of (c : ApiCall) : Shape :=
  match c with
  | GetNews _ _ _ _ | GetNewsBySource _ _ _ | GetHeadlines _ _ _ => SNews
  | GetSources => SSources
  | FetchNewsFromSources _ => SFetchNews
  | GetTrendingTopics _ => STrending
  | GetMarketInsights => SInsights
  | AnalyzeArticle _ _ => SAnalysis
  | GetSentimentAnalysis _ | HealthCheck => SAny
  end.

Definition json_post (fields : list (string * JsVal)) : RequestInit :=
  {| method := POST;
     headers := [("Content-Type", "application/json")];
     body := Some fields |}.

(** The HTTP call a method is expected to issue. *)
Definition call_of (c : ApiCall) : HttpCall :=
  match c with
  | GetNews query page perPage source =>
      {| url := "http://localhost:8000/api/news";
         params :=
           [("page", pretty page); ("per_page", pretty perPage)]
           ++ (if truthy_arg query then [("query", default "" query)] else [])
           ++ (if truthy_arg source then [("source", default "" source)] else []);
         init := no_options; abort_after := 45000 |}
  | GetNewsBySource sourceId page perPage =>
      {| url := "http://localhost:8000/api/news/sources/" +:+ sourceId;
         params := [("page", pretty page); ("per_page", pretty perPage)];
         init := no_options; abort_after := 45000 |}
  | GetSources =>
      {| url := "http://localhost:8000/api/sources"; params := [];
         init := no_options; abort_after := 15000 |}
  | FetchNewsFromSources n =>
      {| url := "http://localhost:8000/api/fetch-news"; params := [];
         init := json_post [("articles_per_source", VNum (inject_Z n))];
         abort_after := 120000 |}
  | GetHeadlines category country pageSize =>
      {| url := "http://localhost:8000/api/headlines";
         params := [("category", category); ("country", country);
                    ("page_size", pretty pageSize)];
         init := no_options; abort_after := 45000 |}
  | GetTrendingTopics hoursBack =>
      {| url := "http://localhost:8000/api/trending";
         params := [("hours_back", pretty hoursBack)];
         init := no_options; abort_after := 45000 |}
  | GetMarketInsights =>
      {| url := "http://localhost:8000/api/insights"; params := [];
         init := no_options; abort_after := 45000 |}
  | AnalyzeArticle articleText title =>
      {| url := "http://localhost:8000/api/analyze"; params := [];
         init := json_post [("article_text", articleText); ("title", title)];
         abort_after := 60000 |}
  | GetSentimentAnalysis text =>
      {| url := "http://localhost:8000/api/sentiment";
         params := [("text", text)];
         init := no_options; abort_after := 45000 |}
  | HealthCheck =>
      {| url := "http://localhost:8000/health"; params := [];
         init := no_options; abort_after := 20000 |}
  end.

(** The network let the deadline of [call] pass. *)
Definition timed_out {s : Shape} (call : HttpCall) (reply : NetReply s) : Prop :=
  abort_after call <= latency reply.

(** The network delivered [response] before the deadline of [call]. *)
Definition delivered {s : Shape} (call : HttpCall) (reply : NetReply s)
    (response : Response s) : Prop :=
  latency reply < abort_after call /\ outcome reply = inl response.

(** A promise that rejected with an error whose message contains [detail]. *)
Definition rejects_with {A : Type} (c : Completion A) (detail : string) : Prop :=
  exists e : JsObject, c = Thrown e /\ embeds detail (message_of e).

(** Method call [c], issued after [log], surfaces failures to its caller:
    a timeout as an error that names the timeout in milliseconds, a
    response outside 200-299 as an error that names the status. *)
Definition surfaces_failures
    (network : forall s : Shape, nat -> HttpCall -> NetReply s)
    (c : ApiCall) (log : list HttpCall) : Prop :=
  let call := call_of c in
  let reply := network (shape_of c) (length log) call in
  (timed_out call reply ->
     rejects_with (fst (invoke network c log)) (pretty (abort_after call) +:+ "ms"))
  /\ (forall response : Response (shape_of c),
        delivered call reply response -> ok response = false ->
        rejects_with (fst (invoke network c log)) (pretty (status response))).

(** The error a promise rejected with, if it did. *)
Definition rejection {A : Type} (c : Completion A) : option JsObject :=
  match c with
  | Thrown e => Some e
  | Normal _ => None
  end.

(** The value a method other than [healthCheck] resolved to, as the body
    of the response it read. *)
Definition as_payload (c : ApiCall) : result_of c -> option (payload (shape_of c)) :=
  match c as c0 return result_of c0 -> option (payload (shape_of c0)) with
  | GetNews _ _ _ _ => fun r => Some r
  | GetNewsBySource _ _ _ => fun r => Some r
  | GetSources => fun r => Some r
  | FetchNewsFromSources _ => fun r => Some r
  | GetHeadlines _ _ _ => fun r => Some r
  | GetTrendingTopics _ => fun r => Some r
  | GetMarketInsights => fun r => Some r
  | AnalyzeArticle _ _ => fun r => Some r
  | GetSentimentAnalysis _ => fun r => Some r
  | HealthCheck => fun _ => None
  end.

(** The network failed before the deadline of [call], with [error]. *)
Definition failed {s : Shape} (call : HttpCall) (reply : NetReply s)
    (error : JsObject) : Prop :=
  latency reply < abort_after call /\ outcome reply = inr error.

(** What [fetchWithTimeout] hands back for a reply of the network. *)
Definition handed_back {s : Shape} (timeout : Z) (reply : NetReply s)
    : Completion (Response s) :=
  if timeout <=? latency reply
  then Thrown (Error ("Request timeout after " +:+ pretty timeout +:+ "ms"))
  else match outcome reply with
       | inl response => Normal response
       | inr error =>
           if is_AbortError error
           then Thrown (Error ("Request timeout after " +:+ pretty timeout +:+ "ms"))
           else Thrown error
       end.

(** What a method that reads a JSON body makes of what it was handed. *)
Definition read_body {s : Shape} (label : string) (c : Completion (Response s))
    : Completion (payload s) :=
  match c with
  | Normal response =>
      if negb (ok response)
      then Thrown (Error (label +:+ pretty (status response) +:+ " "
                          +:+ statusText response))
      else match json_body response with
           | Some v => Normal v
           | None => Thrown SyntaxError
           end
  | Thrown e => Thrown e
  end.

(** The call [analyzeArticle] issues for an article of the page. *)
Definition analyze_call (article : JsObject) : HttpCall :=
  call_of (AnalyzeArticle (prop article "content") (prop article "title")).

(** The object an article becomes once its enrichment call completed. *)
Definition merged (c : Completion NewsAnalysis.t) (article : JsObject) : JsObject :=
  match c with
  | Normal analysis =>
      with_enrichment article
        (VStr (NewsAnalysis.key_insights analysis))
        (VStr (NewsAnalysis.market_impact analysis))
        (VNum (NewsAnalysis.agno_confidence analysis))
  | Thrown _ => with_enrichment article VNull VNull VNull
  end.

(** The articles after the enrichment batch, when [log] holds the calls
    issued before the batch. *)
Fixpoint enrich_from (network : forall s : Shape, nat -> HttpCall -> NetReply s)
    (log : list HttpCall) (articles : list JsObject) : list JsObject :=
  match articles with
  | [] => []
  | article :: rest =>
      merged (fst (api.analyzeArticle network (prop article "content")
                     (prop article "title") log)) article
      :: enrich_from network (log ++ [analyze_call article]) rest
  end.



Definition centred_on (currentPage : Z) : list Z :=
  [currentPage - 2; currentPage - 1; currentPage; currentPage + 1; currentPage + 2].

(* ================================================================== *)
(** * Sample backends and states                                       *)
(* ================================================================== *)

(** A backend that answers every call at once with 503. *)
Definition down_network (s : Shape) (n : nat) (call : HttpCall) : NetReply s :=
  {| latency := 5;
     outcome := inl {| status := 503; statusText := "Service Unavailable";
                       json_body := None |} |}.

(** A backend that never answers in time. *)
Definition slow_network (s : Shape) (n : nat) (call : HttpCall) : NetReply s :=
  {| latency := 500000;
     outcome := inr (mkError "TypeError" "Failed to fetch") |}.

Definition sample_article (id : Z) (title : string) (ai_summary : JsVal) : JsObject :=
  <["confidence_score" := VNull]>
    (<["market_impact" := VNull]>
       (<["ai_summary" := ai_summary]>
          (<["content" := VStr "Export orders rose."]>
             (<["title" := VStr title]>
                (<["id" := VNum (inject_Z id)]> ∅))))).

Definition sample_articles : list JsObject :=
  [ sample_article 1 "Cotton prices" (VStr "Summary made by the backend");
    sample_article 2 "Factory safety" VNull ].

Definition sample_analysis : NewsAnalysis.t :=
  {| NewsAnalysis.id := 7; NewsAnalysis.article_id := 1;
     NewsAnalysis.key_insights := "Prices up";
     NewsAnalysis.market_impact := "high";
     NewsAnalysis.industry_sectors := "textiles";
     NewsAnalysis.geographic_impact := "BD";
     NewsAnalysis.agno_analysis_id := "a-7";
     NewsAnalysis.agno_confidence := (9 # 10)%Q;
     NewsAnalysis.created_at := "2025-01-01" |}.

Definition sample_news : NewsResponse.t :=
  {| NewsResponse.articles := sample_articles; NewsResponse.total := 47;
     NewsResponse.page := 1; NewsResponse.per_page := 10 |}.

(** A healthy backend whose source list is broken: news arrive (two
    articles, 47 in total), the first analysis issued as call number 1
    succeeds, every other analysis fails with 500, [/api/sources] fails
    with 500, anything else (the health probe) is answered with 200. *)
Definition sample_network (s : Shape) (n : nat) (call : HttpCall) : NetReply s :=
  match s with
  | SNews =>
      {| latency := 120;
         outcome := inl {| status := 200; statusText := "OK";
                           json_body := Some (sample_news : payload SNews) |} |}
  | SAnalysis =>
      if Nat.eqb n 1
      then {| latency := 900;
              outcome := inl {| status := 200; statusText := "OK";
                                json_body := Some (sample_analysis : payload SAnalysis) |} |}
      else {| latency := 900;
              outcome := inl {| status := 500; statusText := "Internal Server Error";
                                json_body := None |} |}
  | SSources =>
      {| latency := 30;
         outcome := inl {| status := 500; statusText := "Internal Server Error";
                           json_body := None |} |}
  | _ =>
      {| latency := 10;
         outcome := inl {| status := 200; statusText := "OK"; json_body := None |} |}
  end.

Definition sample_sources : SourcesResponse.t :=
  {| SourcesResponse.sources :=
       <["bbc" := {| NewsSource.name := "BBC"; NewsSource.url := "bbc.com";
                     NewsSource.base_url := "https://www.bbc.com" |}]> ∅;
     SourcesResponse.total := 1 |}.

Definition sample_ingestion : FetchNewsResult.t :=
  {| FetchNewsResult.message := "done";
     FetchNewsResult.results := <["bbc" := 15]> ∅;
     FetchNewsResult.total_articles := 15;
     FetchNewsResult.timestamp := "2025-01-01T00:00:00" |}.

(** A backend on which everything works: every call is answered in time
    with 200 and a well-formed body. *)
Definition healthy_network (s : Shape) (n : nat) (call : HttpCall) : NetReply s :=
  {| latency := 50;
     outcome :=
       inl {| status := 200; statusText := "OK";
              json_body :=
                match s return option (payload s) with
                | SNews => Some sample_news
                | SSources => Some sample_sources
                | SFetchNews => Some sample_ingestion
                | SAnalysis => Some sample_analysis
                | _ => None
                end |} |}.

(** A backend that ingests news but cannot list them: the POST to
    [/api/fetch-news] succeeds, every other call is answered with 500. *)
Definition ingest_only_network (s : Shape) (n : nat) (call : HttpCall) : NetReply s :=
  {| latency := 50;
     outcome :=
       match s return Response s + JsObject with
       | SFetchNews =>
           inl {| status := 200; statusText := "OK";
                  json_body := Some (sample_ingestion : payload SFetchNews) |}
       | _ =>
           inl {| status := 500; statusText := "Internal Server Error";
                  json_body := None |}
       end |}.

(** A backend the browser cannot reach: every call fails at once. *)
Definition unreachable_network (s : Shape) (n : nat) (call : HttpCall) : NetReply s :=
  {| latency := 3;
     outcome := inr (mkError "TypeError" "Failed to fetch") |}.

Definition fresh_world : World := {| view := initial_view; calls := [] |}.

(** The state of a render in which the user typed [query] and selected
    [source], with [pages] pages known. *)
Definition view_with (query source : string) (pages : Z) : View :=
  {| searchQuery := query; newsArticles := []; sources := ∅;
     selectedSource := source; loading := false; fetchingNews := false;
     error := None; currentPage := 1; totalPages := pages; totalArticles := 0 |}.

(* ================================================================== *)
(** * Basic facts                                                      *)
(* ================================================================== *)

Lemma message_of_mkError (name message : string) :
  message_of (mkError name message) = message.
Proof.
  unfold message_of, prop, mkError. by rewrite lookup_insert_eq.
Qed.

Lemma is_AbortError_mkError (name message : string) :
  is_AbortError (mkError name message) = String.eqb name "AbortError".
Proof.
  unfold is_AbortError, prop, mkError.
  rewrite lookup_insert_ne by done. by rewrite lookup_insert_eq.
Qed.

Lemma append_empty_r (s : string) : s +:+ "" = s.
Proof. induction s as [| c s IH]; [done | exact (f_equal (String c) IH)]. Qed.

Lemma embeds_middle (pre needle post : string) :
  embeds needle (pre +:+ needle +:+ post).
Proof. by exists pre, post. Qed.

Section ClientFacts.

Variable network : forall s : Shape, nat -> HttpCall -> NetReply s.

Lemma fetchWithTimeout_run (s : Shape) (url : string)
    (params : list (string * string)) (options : RequestInit) (timeout : Z)
    (log : list HttpCall) :
  let call := {| url := url; params := params; init := options;
                 abort_after := timeout |} in
  api.fetchWithTimeout network s url params options timeout log
  = (handed_back timeout (network s (length log) call), log ++ [call]).
Proof.
  cbv zeta. unfold api.fetchWithTimeout, try_catch, bind, api.fetch, handed_back.
  cbn [abort_after].
  destruct (timeout <=? latency _) eqn:Hlate.
  - unfold AbortError. rewrite is_AbortError_mkError. reflexivity.
  - destruct (outcome _) as [response | error]; [reflexivity |].
    unfold throw. by destruct (is_AbortError error).
Qed.

(** Every method but [healthCheck] has the same three steps. *)
Lemma json_method_run (s : Shape) (url : string)
    (params : list (string * string)) (options : RequestInit) (timeout : Z)
    (label : string) (log : list HttpCall) :
  let call := {| url := url; params := params; init := options;
                 abort_after := timeout |} in
  (let* response := api.fetchWithTimeout network s url params options timeout in
   if negb (ok response)
   then throw (Error (label +:+ pretty (status response) +:+ " "
                      +:+ statusText response))
   else api.json response) log
  = (read_body label (handed_back timeout (network s (length log) call)),
     log ++ [call]).
Proof.
  cbv zeta. unfold bind. rewrite fetchWithTimeout_run.
  destruct (handed_back _ _) as [response | e]; [| reflexivity].
  cbn [read_body]. destruct (negb (ok response)); [reflexivity |].
  unfold api.json. by destruct (json_body response).
Qed.

Lemma getNews_params (l : list (string * string)) (query source : option string) :
  append_if_truthy (append_if_truthy l "query" query) "source" source
  = l ++ (if truthy_arg query then [("query", default "" query)] else [])
      ++ (if truthy_arg source then [("source", default "" source)] else []).
Proof.
  unfold append_if_truthy, truthy_arg.
  destruct query as [q |], source as [src |]; cbn [default];
    repeat match goal with
           | |- context [truthy_string ?x] => destruct (truthy_string x)
           end;
    rewrite ?app_nil_r, <- ?app_assoc; reflexivity.
Qed.

(** The log after any method call: exactly one more entry. *)
Lemma invoke_log (c : ApiCall) (log : list HttpCall) :
  snd (invoke network c log) = log ++ [call_of c].
Proof.
  destruct c; cbn [invoke call_of];
    try (unfold api.getNews, api.getNewsBySource, api.getSources,
           api.fetchNewsFromSources, api.getHeadlines, api.getTrendingTopics,
           api.getMarketInsights, api.analyzeArticle, api.getSentimentAnalysis;
         cbv zeta; rewrite json_method_run; cbn [snd];
         rewrite ?getNews_params; reflexivity).
  unfold api.healthCheck, try_catch, bind. rewrite fetchWithTimeout_run.
  by destruct (handed_back _ _).
Qed.

(** Whether and how a method other than [healthCheck] rejects. *)
Lemma invoke_rejection (c : ApiCall) (log : list HttpCall) :
  c <> HealthCheck ->
  exists label : string,
    rejection (fst (invoke network c log))
    = rejection (read_body label
                   (handed_back (abort_after (call_of c))
                      (network (shape_of c) (length log) (call_of c)))).
Proof.
  intros Hc. destruct c; try congruence; cbn [invoke call_of shape_of abort_after];
    unfold api.getNews, api.getNewsBySource, api.getSources,
      api.fetchNewsFromSources, api.getHeadlines, api.getTrendingTopics,
      api.getMarketInsights, api.analyzeArticle, api.getSentimentAnalysis;
    cbv zeta; eexists; rewrite json_method_run; cbn [fst];
    rewrite ?getNews_params; reflexivity.
Qed.

Lemma healthCheck_run (log : list HttpCall) :
  api.healthCheck network log
  = (Normal (match handed_back 20000
                     (network SAny (length log) (call_of HealthCheck)) with
             | Normal response => ok response
             | Thrown _ => false
             end),
     log ++ [call_of HealthCheck]).
Proof.
  unfold api.healthCheck, try_catch, bind. rewrite fetchWithTimeout_run.
  by destruct (handed_back _ _).
Qed.

End ClientFacts.

Lemma read_body_timed_out {s : Shape} (label : string) (timeout : Z)
    (reply : NetReply s) :
  timeout <= latency reply ->
  exists e : JsObject,
    rejection (read_body label (handed_back timeout reply)) = Some e
    /\ embeds (pretty timeout +:+ "ms") (message_of e).
Proof.
  intros Hlate. unfold handed_back.
  rewrite (proj2 (Z.leb_le _ _) Hlate). cbn [read_body rejection].
  eexists; split; [reflexivity |].
  unfold Error. rewrite message_of_mkError.
  exists "Request timeout after ", "". by rewrite append_empty_r.
Qed.

Lemma read_body_not_ok {s : Shape} (label : string) (timeout : Z)
    (reply : NetReply s) (response : Response s) :
  latency reply < timeout -> outcome reply = inl response -> ok response = false ->
  exists e : JsObject,
    rejection (read_body label (handed_back timeout reply)) = Some e
    /\ embeds (pretty (status response)) (message_of e).
Proof.
  intros Hearly Hout Hok. unfold handed_back.
  rewrite (proj2 (Z.leb_gt _ _) Hearly), Hout. cbn [read_body].
  rewrite Hok. cbn [negb rejection].
  eexists; split; [reflexivity |].
  unfold Error. rewrite message_of_mkError. apply embeds_middle.
Qed.

Lemma rejects_with_rejection {A : Type} (c : Completion A) (detail : string) :
  rejects_with c detail
  <-> exists e : JsObject, rejection c = Some e /\ embeds detail (message_of e).
Proof.
  unfold rejects_with. split; intros (e & H & He); exists e; split; try done.
  - by rewrite H.
  - destruct c; cbn in H; congruence.
Qed.

(** Unfold the monad and the setters of the page. *)
Ltac run_page :=
  unfold try_finally, try_catch, bind, ret, throw, await,
    setNewsArticles, setSources, setSelectedSource, setLoading,
    setFetchingNews, setError, setCurrentPage, setTotalPages,
    setTotalArticles, setState;
  cbn [view calls fst snd searchQuery newsArticles sources selectedSource
       loading fetchingNews error currentPage totalPages totalArticles].

(** Reduce the projections of the state everywhere. *)
Ltac simpl_page :=
  cbn [view calls fst snd searchQuery newsArticles sources selectedSource
       loading fetchingNews error currentPage totalPages totalArticles] in *.

Section PageFacts.

Variable network : forall s : Shape, nat -> HttpCall -> NetReply s.

(** The request [fetchNewsBySource] makes. *)
Lemma fetchNewsBySource_run (sourceId : string) (page : Z) (w : World) :
  let c := if String.eqb sourceId "all"
           then GetNews None page articlesPerPage None
           else GetNewsBySource sourceId page articlesPerPage in
  exists v : View,
    Home.fetchNewsBySource network sourceId page w
    = (Normal tt, {| view := v; calls := calls w ++ [call_of c] |})
    /\ selectedSource v = selectedSource (view w)
    /\ searchQuery v = searchQuery (view w)
    /\ loading v = false
    /\ (currentPage v = page \/ currentPage v = currentPage (view w)).
Proof.
  cbv zeta. unfold Home.fetchNewsBySource.
  destruct (String.eqb sourceId "all").
  - pose proof (invoke_log network (GetNews None page articlesPerPage None) (calls w)) as Hlog.
    cbn [invoke] in Hlog. run_page.
    destruct (api.getNews network None page articlesPerPage None (calls w))
      as [[newsData | e] log1]; cbn [snd] in Hlog; subst log1;
      eexists; (split; [reflexivity |]);
      cbn [selectedSource searchQuery loading currentPage view]; auto.
  - pose proof (invoke_log network (GetNewsBySource sourceId page articlesPerPage) (calls w)) as Hlog.
    cbn [invoke] in Hlog. run_page.
    destruct (api.getNewsBySource network sourceId page articlesPerPage (calls w))
      as [[newsData | e] log1]; cbn [snd] in Hlog; subst log1;
      eexists; (split; [reflexivity |]);
      cbn [selectedSource searchQuery loading currentPage view]; auto.
Qed.

(** [fetchNewsBySource] once its request resolved. *)
Lemma fetchNewsBySource_loaded (sourceId : string) (page : Z) (w : World)
    (newsData : NewsResponse.t) (log1 : list HttpCall) :
  (if String.eqb sourceId "all"
   then api.getNews network None page articlesPerPage None
   else api.getNewsBySource network sourceId page articlesPerPage) (calls w)
  = (Normal newsData, log1) ->
  Home.fetchNewsBySource network sourceId page w
  = (Normal tt,
     {| view :=
          {| searchQuery := searchQuery (view w);
             newsArticles := NewsResponse.articles newsData;
             sources := sources (view w);
             selectedSource := selectedSource (view w);
             loading := false;
             fetchingNews := fetchingNews (view w);
             error := None;
             currentPage := page;
             totalPages := ceil_div (NewsResponse.total newsData) articlesPerPage;
             totalArticles := NewsResponse.total newsData |};
        calls := log1 |}).
Proof.
  intros Hnews. unfold Home.fetchNewsBySource. run_page.
  destruct (String.eqb sourceId "all"); run_page; rewrite Hnews; reflexivity.
Qed.

Lemma analyzeOne_run (article : JsObject) (v : View) (log : list HttpCall) :
  Home.analyzeOne network article {| view := v; calls := log |}
  = (Normal (merged (fst (api.analyzeArticle network (prop article "content")
                            (prop article "title") log)) article),
     {| view := v; calls := log ++ [analyze_call article] |}).
Proof.
  pose proof (invoke_log network
                (AnalyzeArticle (prop article "content") (prop article "title"))
                log) as Hlog.
  cbn [invoke] in Hlog. unfold Home.analyzeOne. run_page.
  destruct (api.analyzeArticle network _ _ log) as [[analysis | e] log1];
    cbn [snd fst merged] in *; subst log1; reflexivity.
Qed.

Lemma allSettled_analyze (articles : list JsObject) (v : View)
    (log : list HttpCall) :
  allSettled (map (Home.analyzeOne network) articles) {| view := v; calls := log |}
  = (Normal (map Fulfilled (enrich_from network log articles)),
     {| view := v; calls := log ++ map analyze_call articles |}).
Proof.
  revert log. induction articles as [| article rest IH]; intros log.
  - cbn. by rewrite app_nil_r.
  - cbn [map allSettled enrich_from]. unfold bind at 1, settle.
    rewrite analyzeOne_run. unfold bind at 1. rewrite IH.
    unfold ret. by rewrite <- app_assoc.
Qed.

Lemma keep_objects (l : list JsObject) :
  filter (fun article => is_object article = true)
         (map value_or_reason (map Fulfilled l)) = l.
Proof.
  induction l as [| x l IH]; [done |].
  cbn [map value_or_reason]. rewrite filter_cons_True by done. by rewrite IH.
Qed.

Lemma enrich_from_length (log : list HttpCall) (articles : list JsObject) :
  length (enrich_from network log articles) = length articles.
Proof.
  revert log. induction articles as [| a rest IH]; intros log; cbn; [done |].
  by rewrite IH.
Qed.

Lemma enrich_from_lookup (log : list HttpCall) (articles : list JsObject)
    (i : nat) (article : JsObject) :
  articles !! i = Some article ->
  enrich_from network log articles !! i
  = Some (merged (fst (api.analyzeArticle network (prop article "content")
                         (prop article "title")
                         (log ++ map analyze_call (take i articles))))
            article).
Proof.
  revert log i. induction articles as [| a rest IH]; intros log i Hi; [done |].
  destruct i as [| i].
  - cbn in Hi. injection Hi as ->. cbn. by rewrite app_nil_r.
  - cbn in Hi. cbn [enrich_from take map]. rewrite lookup_cons.
    rewrite (IH _ _ Hi). by rewrite <- app_assoc.
Qed.

(** [fetchNews] once [getNews] resolved. *)
Lemma fetchNews_run (query : option string) (page : Z) (w : World)
    (newsData : NewsResponse.t) (log1 : list HttpCall) :
  api.getNews network query page articlesPerPage None (calls w)
  = (Normal newsData, log1) ->
  Home.fetchNews network query page w
  = (Normal tt,
     {| view :=
          {| searchQuery := searchQuery (view w);
             newsArticles :=
               enrich_from network log1 (NewsResponse.articles newsData);
             sources := sources (view w);
             selectedSource := selectedSource (view w);
             loading := false;
             fetchingNews := fetchingNews (view w);
             error := error (view w);
             currentPage := page;
             totalPages := ceil_div (NewsResponse.total newsData) articlesPerPage;
             totalArticles := NewsResponse.total newsData |};
        calls := log1 ++ map analyze_call (NewsResponse.articles newsData) |}).
Proof.
  intros Hnews. unfold Home.fetchNews. run_page. rewrite Hnews. run_page.
  destruct (NewsResponse.articles newsData) as [| a rest] eqn:Harticles.
  - cbn. by rewrite app_nil_r.
  - change (0 <? length (a :: rest))%nat with true. cbv iota. run_page.
    rewrite allSettled_analyze. run_page. by rewrite keep_objects.
Qed.

End PageFacts.

(** ** White space and [trim] *)

Lemma all_whitespace_rev_app (s1 s2 : string) :
  all_whitespace (String.rev_app s1 s2) = all_whitespace s1 && all_whitespace s2.
Proof.
  revert s2. induction s1 as [| c s1 IH]; intros s2; [done |].
  cbn [String.rev_app all_whitespace]. rewrite IH. cbn [all_whitespace].
  by destruct (is_js_whitespace c), (all_whitespace s1), (all_whitespace s2).
Qed.

Lemma all_whitespace_rev (s : string) :
  all_whitespace (String.rev s) = all_whitespace s.
Proof.
  unfold String.rev. rewrite all_whitespace_rev_app. cbn.
  by destruct (all_whitespace s).
Qed.

Lemma all_whitespace_trimStart (s : string) :
  all_whitespace (trimStart s) = all_whitespace s.
Proof.
  induction s as [| c s IH]; [done |].
  cbn [trimStart all_whitespace].
  destruct (is_js_whitespace c) eqn:Hc; [done |]. cbn. by rewrite Hc.
Qed.

Lemma trimStart_blank (s : string) :
  all_whitespace s = true -> trimStart s = "".
Proof.
  induction s as [| c s IH]; [done |]. cbn.
  destruct (is_js_whitespace c); [exact IH | done].
Qed.

Lemma not_blank_truthy (s : string) :
  all_whitespace s = false -> truthy_string s = true.
Proof. by destruct s. Qed.

(** [s.trim()] is the empty string exactly when [s] is blank. *)
Lemma truthy_trim (s : string) :
  truthy_string (trim s) = negb (all_whitespace s).
Proof.
  unfold trim, trimEnd. destruct (all_whitespace s) eqn:Hs.
  - by rewrite (trimStart_blank s Hs).
  - apply not_blank_truthy.
    by rewrite all_whitespace_rev, all_whitespace_trimStart, all_whitespace_rev,
      all_whitespace_trimStart.
Qed.

(** ** Page numbers *)

Lemma pretty_1 : pretty (1 : Z) = "1".
Proof. by vm_compute. Qed.

Lemma pretty_10 : pretty articlesPerPage = "10".
Proof. by vm_compute. Qed.

Lemma ceil_div_bounds (total : Z) :
  10 * (ceil_div total articlesPerPage - 1) < total
  <= 10 * ceil_div total articlesPerPage.
Proof.
  unfold ceil_div, articlesPerPage.
  pose proof (Z.div_mod (- total) 10 ltac:(lia)).
  pose proof (Z.mod_pos_bound (- total) 10 ltac:(lia)). lia.
Qed.

Lemma pageNumbers_five (currentPage totalPages : Z) :
  5 < totalPages ->
  Home.pageNumbers currentPage totalPages
  = map (Home.pageNum currentPage totalPages) [0; 1; 2; 3; 4].
Proof.
  intros Htp. unfold Home.pageNumbers. by rewrite Z.min_l by lia.
Qed.


(* ================================================================== *)
(** * Properties of the specification                                  *)
(* ================================================================== *)

(** C10.  A page number outside [1..totalPages] makes [handlePageChange] do
    nothing: it completes without issuing any API request and the whole
    React state (current page, articles, totals, loading and error flags
    and the rest) is what it was. *)
Theorem handlePageChange_out_of_range
    (network : forall s : Shape, nat -> HttpCall -> NetReply s)
    (rendered : View) (page : Z) (w : World) :
  page < 1 \/ totalPages rendered < page ->
  Home.handlePageChange network rendered page w = (Normal tt, w).
Proof.
  intros Hout. unfold Home.handlePageChange.
  destruct (1 <=? page) eqn:H1; destruct (page <=? totalPages rendered) eqn:H2;
    cbn [andb]; try reflexivity.
  apply Z.leb_le in H1, H2. lia.
Qed.

Lemma handlePageChange_out_of_range_witness :
  (0 < 1 \/ totalPages (view_with "denim" "all" 5) < 0)
  /\ Home.handlePageChange sample_network (view_with "denim" "all" 5) 0 fresh_world
     = (Normal tt, fresh_world)
  /\ Home.handlePageChange sample_network (view_with "denim" "all" 5) 6 fresh_world
     = (Normal tt, fresh_world).
Proof.
  split; [left; lia |]. split.
  - apply handlePageChange_out_of_range. left; lia.
  - apply handlePageChange_out_of_range. right; cbn; lia.
Defined.

(** C7.  [handleSourceChange] selects the given source, puts the current
    page back to 1 and issues exactly one request, for page 1 with the
    fixed page size: the per-source endpoint for an identifier other than
    "all", the unscoped news endpoint (no query, no source) for "all". *)
Theorem handleSourceChange_spec
    (network : forall s : Shape, nat -> HttpCall -> NetReply s)
    (sourceId : string) (w : World) :
  let w' := snd (Home.handleSourceChange network sourceId w) in
  fst (Home.handleSourceChange network sourceId w) = Normal tt
  /\ selectedSource (view w') = sourceId
  /\ currentPage (view w') = 1
  /\ calls w'
     = calls w
       ++ [ if String.eqb sourceId "all"
            then {| url := "http://localhost:8000/api/news";
                    params := [("page", "1"); ("per_page", "10")];
                    init := no_options; abort_after := 45000 |}
            else {| url := "http://localhost:8000/api/news/sources/" +:+ sourceId;
                    params := [("page", "1"); ("per_page", "10")];
                    init := no_options; abort_after := 45000 |} ].
Proof.
  cbv zeta. unfold Home.handleSourceChange. run_page.
  match goal with
  | |- context [Home.fetchNewsBySource network sourceId 1 ?w1] =>
      destruct (fetchNewsBySource_run network sourceId 1 w1)
        as (v & Hrun & Hsel & _ & _ & Hpage)
  end.
  rewrite Hrun. simpl_page.
  repeat split; [done | by destruct Hpage |].
  f_equal. destruct (String.eqb sourceId "all"); cbn [call_of truthy_arg];
    by rewrite pretty_1, pretty_10.
Qed.

(** C6.  [handleSearch] with a query that is empty or all white space
    issues no query search: it puts the current page back to 1 and issues
    one request for the unfiltered page 1 of the selected source (the
    unscoped news endpoint when the selection is "all", the per-source
    endpoint otherwise).  With any other query it issues one [getNews]
    request carrying that query, page 1 and the selected source (no source
    when the selection is "all"; [getNews] also leaves out a source that
    is the empty string). *)
Theorem handleSearch_spec
    (network : forall s : Shape, nat -> HttpCall -> NetReply s)
    (rendered : View) (w : World) :
  let query := searchQuery rendered in
  let selected := selectedSource rendered in
  let w' := snd (Home.handleSearch network rendered w) in
  fst (Home.handleSearch network rendered w) = Normal tt
  /\ currentPage (view w') = 1
  /\ (all_whitespace query = true ->
      calls w'
      = calls w
        ++ [ if String.eqb selected "all"
             then {| url := "http://localhost:8000/api/news";
                     params := [("page", "1"); ("per_page", "10")];
                     init := no_options; abort_after := 45000 |}
             else {| url := "http://localhost:8000/api/news/sources/" +:+ selected;
                     params := [("page", "1"); ("per_page", "10")];
                     init := no_options; abort_after := 45000 |} ])
  /\ (all_whitespace query = false ->
      calls w' = snd (api.getNews network (Some query) 1 articlesPerPage
                        (if String.eqb selected "all" then None else Some selected)
                        (calls w))
      /\ calls w'
         = calls w
           ++ [ {| url := "http://localhost:8000/api/news";
                   params :=
                     [("page", "1"); ("per_page", "10"); ("query", query)]
                     ++ (if String.eqb selected "all" then []
                         else if truthy_string selected then [("source", selected)]
                         else []);
                   init := no_options; abort_after := 45000 |} ]).
Proof.
  cbv zeta. unfold Home.handleSearch. rewrite truthy_trim.
  destruct (all_whitespace (searchQuery rendered)) eqn:Hblank; cbn [negb].
  - run_page.
    match goal with
    | |- context [Home.fetchNewsBySource network ?s 1 ?w1] =>
        destruct (fetchNewsBySource_run network s 1 w1)
          as (v & Hrun & _ & _ & _ & Hpage)
    end.
    rewrite Hrun. simpl_page.
    split; [done |]. split; [by destruct Hpage |]. split; [| done].
    intros _. f_equal.
    destruct (String.eqb (selectedSource rendered) "all"); cbn [call_of truthy_arg];
      by rewrite pretty_1, pretty_10.
  - pose proof (invoke_log network
                  (GetNews (Some (searchQuery rendered)) 1 articlesPerPage
                     (Home.source_filter rendered)) (calls w)) as Hlog.
    cbn [invoke] in Hlog. run_page.
    assert (Hcall :
      call_of (GetNews (Some (searchQuery rendered)) 1 articlesPerPage
                 (Home.source_filter rendered))
      = {| url := "http://localhost:8000/api/news";
           params :=
             [("page", "1"); ("per_page", "10"); ("query", searchQuery rendered)]
             ++ (if String.eqb (selectedSource rendered) "all" then []
                 else if truthy_string (selectedSource rendered)
                      then [("source", selectedSource rendered)]
                      else []);
           init := no_options; abort_after := 45000 |}).
    { cbn [call_of truthy_arg default]. rewrite (not_blank_truthy _ Hblank).
      rewrite pretty_1, pretty_10. unfold Home.source_filter.
      destruct (String.eqb (selectedSource rendered) "all"); cbn [truthy_arg default];
        [done |]. by destruct (truthy_string (selectedSource rendered)). }
    rewrite Hcall in Hlog. fold (Home.source_filter rendered).
    destruct (api.getNews network (Some (searchQuery rendered)) 1 articlesPerPage
                (Home.source_filter rendered) (calls w))
      as [[newsData | e] log1]; simpl_page; subst log1;
      (split; [done |]); (split; [done |]); (split; [done |]); intros _; by split.
Qed.

Lemma handleSearch_spec_witness :
  (all_whitespace (searchQuery (view_with "   " "bbc" 5)) = true
   /\ calls (snd (Home.handleSearch down_network (view_with "   " "bbc" 5) fresh_world))
      = [ {| url := "http://localhost:8000/api/news/sources/bbc";
             params := [("page", "1"); ("per_page", "10")];
             init := no_options; abort_after := 45000 |} ])
  /\ (all_whitespace (searchQuery (view_with " cotton" "bbc" 5)) = false
      /\ calls (snd (Home.handleSearch down_network (view_with " cotton" "bbc" 5)
                       fresh_world))
         = [ {| url := "http://localhost:8000/api/news";
                params := [("page", "1"); ("per_page", "10");
                           ("query", " cotton"); ("source", "bbc")];
                init := no_options; abort_after := 45000 |} ]).
Proof.
  split; (split; [reflexivity |]).
  - destruct (handleSearch_spec down_network (view_with "   " "bbc" 5) fresh_world)
      as (_ & _ & Hblank & _).
    exact (Hblank eq_refl).
  - destruct (handleSearch_spec down_network (view_with " cotton" "bbc" 5) fresh_world)
      as (_ & _ & _ & Hquery).
    exact (proj2 (Hquery eq_refl)).
Defined.

(** C4.  When the initial [healthCheck()] resolves to [false],
    [fetchInitialData] shows the backend-unavailable message, clears the
    loading flag and returns: the health probe is the only call it issued
    (no [getSources], no article fetch), and sources and articles are
    untouched. *)
Theorem fetchInitialData_unhealthy
    (network : forall s : Shape, nat -> HttpCall -> NetReply s) (w : World) :
  fst (api.healthCheck network (calls w)) = Normal false ->
  let w' := snd (Home.fetchInitialData network w) in
  fst (Home.fetchInitialData network w) = Normal tt
  /\ error (view w')
     = Some "Backend server is not responding. Please ensure the backend is running on http://localhost:8000"
  /\ loading (view w') = false
  /\ calls w'
     = calls w ++ [ {| url := "http://localhost:8000/health"; params := [];
                       init := no_options; abort_after := 20000 |} ]
  /\ sources (view w') = sources (view w)
  /\ newsArticles (view w') = newsArticles (view w).
Proof.
  intros Hhealth. cbv zeta. unfold Home.fetchInitialData. run_page.
  pose proof (healthCheck_run network (calls w)) as Hrun.
  destruct (api.healthCheck network (calls w)) as [c log1].
  cbn [fst] in Hhealth. subst c. injection Hrun as _ ->.
  simpl_page. repeat split; reflexivity.
Qed.

Lemma fetchInitialData_unhealthy_witness :
  fst (api.healthCheck down_network (calls fresh_world)) = Normal false
  /\ error (view (snd (Home.fetchInitialData down_network fresh_world)))
     = Some "Backend server is not responding. Please ensure the backend is running on http://localhost:8000"
  /\ calls (snd (Home.fetchInitialData down_network fresh_world))
     = [ {| url := "http://localhost:8000/health"; params := [];
            init := no_options; abort_after := 20000 |} ].
Proof.
  assert (H : fst (api.healthCheck down_network (calls fresh_world)) = Normal false)
    by reflexivity.
  split; [exact H |].
  destruct (fetchInitialData_unhealthy down_network fresh_world H)
    as (_ & Herror & _ & Hcalls & _).
  split; [exact Herror | exact Hcalls].
Defined.

(** C5.  When the backend is healthy and [getSources()] rejects,
    [fetchInitialData] catches the rejection, sets the source map to the
    empty map and completes the initial load: it returns normally, the
    loading flag is cleared and the page-level error stays unset. *)
Theorem fetchInitialData_sources_rejected
    (network : forall s : Shape, nat -> HttpCall -> NetReply s) (w : World)
    (log1 log2 : list HttpCall) (e : JsObject) :
  api.healthCheck network (calls w) = (Normal true, log1) ->
  api.getSources network log1 = (Thrown e, log2) ->
  let w' := snd (Home.fetchInitialData network w) in
  fst (Home.fetchInitialData network w) = Normal tt
  /\ sources (view w') = ∅
  /\ error (view w') = None
  /\ loading (view w') = false
  /\ calls w' = log2.
Proof.
  intros Hhealth Hsources. cbv zeta. unfold Home.fetchInitialData. run_page.
  rewrite Hhealth. cbn [negb view calls]. rewrite Hsources. cbn.
  repeat split; reflexivity.
Qed.

Lemma fetchInitialData_sources_rejected_witness :
  api.healthCheck sample_network (calls fresh_world)
  = (Normal true, [call_of HealthCheck])
  /\ api.getSources sample_network [call_of HealthCheck]
     = (Thrown (Error "Failed to fetch sources: 500 Internal Server Error"),
        [call_of HealthCheck; call_of GetSources])
  /\ fst (Home.fetchInitialData sample_network fresh_world) = Normal tt
  /\ sources (view (snd (Home.fetchInitialData sample_network fresh_world))) = ∅
  /\ error (view (snd (Home.fetchInitialData sample_network fresh_world))) = None.
Proof.
  assert (H1 : api.healthCheck sample_network (calls fresh_world)
               = (Normal true, [call_of HealthCheck])) by (vm_compute; reflexivity).
  assert (H2 : api.getSources sample_network [call_of HealthCheck]
               = (Thrown (Error "Failed to fetch sources: 500 Internal Server Error"),
                  [call_of HealthCheck; call_of GetSources]))
    by (vm_compute; reflexivity).
  split; [exact H1 |]. split; [exact H2 |].
  destruct (fetchInitialData_sources_rejected sample_network fresh_world _ _ _ H1 H2)
    as (Hret & Hsrc & Herr & _).
  split; [exact Hret |]. split; [exact Hsrc | exact Herr].
Defined.

(** C8.  [healthCheck()] is total over what the network can do.  Whatever
    the reply (a response in time, 2xx or not, no reply before the 20 s
    deadline, a network error), it resolves to a boolean and never
    rejects; the boolean is [true] exactly when a response was delivered
    and its status is in 200-299.  Every other method of [api] does reject
    for some behaviour of the network. *)
Theorem healthCheck_total
    (network : forall s : Shape, nat -> HttpCall -> NetReply s)
    (log : list HttpCall) :
  let call := call_of HealthCheck in
  let reply := network SAny (length log) call in
  (exists b : bool,
     api.healthCheck network log = (Normal b, log ++ [call])
     /\ (b = true <->
         exists response : Response SAny,
           delivered call reply response /\ 200 <= status response <= 299))
  /\ (forall c : ApiCall, c <> HealthCheck ->
      exists (network' : forall s : Shape, nat -> HttpCall -> NetReply s)
             (e : JsObject),
        fst (invoke network' c log) = Thrown e).
Proof.
  cbv zeta. split.
  - rewrite healthCheck_run. eexists; split; [reflexivity |].
    unfold delivered, handed_back. cbn [call_of abort_after].
    destruct (20000 <=? latency _) eqn:Hlate.
    + split; [done |]. intros (response & [Hlt _] & _).
      apply Z.leb_le in Hlate. lia.
    + apply Z.leb_gt in Hlate.
      destruct (outcome _) as [response | error] eqn:Hout.
      * unfold ok. split.
        -- intros Hok. exists response. apply andb_true_iff in Hok as [H1 H2].
           apply Z.leb_le in H1, H2. repeat split; [done | lia | lia].
        -- intros (response' & [_ Heq] & H1 & H2). injection Heq as <-.
           apply andb_true_iff. split; apply Z.leb_le; lia.
      * split; [by destruct (is_AbortError error) |].
        intros (response & [_ Heq] & _). discriminate.
  - intros c Hc. exists slow_network.
    destruct (invoke_rejection slow_network c log Hc) as (label & Hrej).
    destruct (read_body_timed_out label (abort_after (call_of c))
                (slow_network (shape_of c) (length log) (call_of c)))
      as (e & He & _).
    { destruct c; cbn; lia. }
    exists e. rewrite He in Hrej.
    destruct (fst (invoke slow_network c log)); cbn in Hrej; congruence.
Qed.

Lemma healthCheck_total_witness :
  GetSources <> HealthCheck
  /\ api.healthCheck slow_network [] = (Normal false, [call_of HealthCheck])
  /\ exists (network' : forall s : Shape, nat -> HttpCall -> NetReply s)
            (e : JsObject),
       fst (invoke network' GetSources []) = Thrown e.
Proof.
  assert (Hne : GetSources <> HealthCheck) by discriminate.
  split; [exact Hne |]. split; [vm_compute; reflexivity |].
  exact (proj2 (healthCheck_total slow_network []) GetSources Hne).
Defined.

(** C3, as stated, fails for [healthCheck]: a 503 response is not surfaced
    to the caller as an error; the call resolves to [false]. *)
Lemma healthCheck_swallows_failures :
  api.healthCheck down_network [] = (Normal false, [call_of HealthCheck])
  /\ ~ surfaces_failures down_network HealthCheck [].
Proof.
  split; [vm_compute; reflexivity |].
  intros [_ Hstatus].
  specialize (Hstatus {| status := 503; statusText := "Service Unavailable";
                         json_body := None |}).
  destruct Hstatus as (e & He & _).
  - split; [cbn; lia | reflexivity].
  - reflexivity.
  - vm_compute in He. discriminate.
Qed.

(** C3, amended.  Every call of a method of [api] issues exactly one
    [fetch] (one more entry in the log, whatever the reply: no retry),
    under a deadline between 15 s and 120 s after which the call is
    aborted.  For every method other than [healthCheck], a timeout rejects
    with an error whose message contains the timeout in milliseconds and a
    response outside 200-299 rejects with an error whose message contains
    the status.  [healthCheck] resolves to [false] in both cases. *)
Theorem api_call_single_attempt
    (network : forall s : Shape, nat -> HttpCall -> NetReply s)
    (c : ApiCall) (log : list HttpCall) :
  snd (invoke network c log) = log ++ [call_of c]
  /\ 15000 <= abort_after (call_of c) <= 120000
  /\ (c <> HealthCheck -> surfaces_failures network c log)
  /\ (forall response : Response SAny,
        timed_out (call_of HealthCheck)
          (network SAny (length log) (call_of HealthCheck))
        \/ (delivered (call_of HealthCheck)
              (network SAny (length log) (call_of HealthCheck)) response
            /\ ok response = false) ->
        fst (api.healthCheck network log) = Normal false).
Proof.
  split; [apply invoke_log |].
  split; [destruct c; cbn; lia |].
  split.
  - intros Hc. destruct (invoke_rejection network c log Hc) as (label & Hrej).
    unfold surfaces_failures. cbv zeta. split.
    + intros Hlate. apply rejects_with_rejection. rewrite Hrej.
      by apply read_body_timed_out.
    + intros response [Hearly Hout] Hok. apply rejects_with_rejection.
      rewrite Hrej. by apply read_body_not_ok.
  - intros response Hfail. rewrite healthCheck_run. cbn [fst]. f_equal.
    unfold handed_back, timed_out, delivered in *. cbn [call_of abort_after] in *.
    destruct Hfail as [Hlate | [[Hearly Hout] Hok]].
    + by rewrite (proj2 (Z.leb_le _ _) Hlate).
    + by rewrite (proj2 (Z.leb_gt _ _) Hearly), Hout.
Qed.

Lemma api_call_single_attempt_witness :
  GetSources <> HealthCheck
  /\ snd (invoke down_network GetSources []) = [call_of GetSources]
  /\ rejects_with (fst (api.getSources down_network [])) "503"
  /\ rejects_with (fst (api.getSources slow_network [])) "15000ms".
Proof.
  assert (Hne : GetSources <> HealthCheck) by discriminate.
  split; [exact Hne |].
  destruct (api_call_single_attempt down_network GetSources [])
    as (Hlog & _ & Hdown & _).
  destruct (api_call_single_attempt slow_network GetSources [])
    as (_ & _ & Hslow & _).
  split; [exact Hlog |]. split.
  - refine (proj2 (Hdown Hne)
              {| status := 503; statusText := "Service Unavailable";
                 json_body := None |} _ _).
    + split; [cbn; lia | reflexivity].
    + reflexivity.
  - refine (proj1 (Hslow Hne) _). unfold timed_out. cbn. lia.
Defined.

(** Two lists of integers with as many entries, equal entry by entry. *)
Ltac list_eq_lia :=
  repeat (apply (f_equal2 (@cons Z)); [lia |]); reflexivity.

(** The clamped windows coincide with the centred one at the two border
    pages: page 3 shows 1..5 and page [totalPages - 2] shows the last five,
    each with the current page on the middle button. *)
Lemma pageNumbers_borders (totalPages : Z) :
  5 < totalPages ->
  Home.pageNumbers 3 totalPages = centred_on 3
  /\ Home.pageNumbers (totalPages - 2) totalPages = centred_on (totalPages - 2).
Proof.
  intros Htp. rewrite !pageNumbers_five by done.
  unfold Home.pageNum, centred_on. cbn [map].
  rewrite (proj2 (Z.leb_gt _ _) Htp).
  replace (totalPages - 2 <=? 3) with false by (symmetry; apply Z.leb_gt; lia).
  rewrite !Z.leb_refl. split; [reflexivity | list_eq_lia].
Qed.




(** C1.  Once a page of [N > 0] articles is loaded, [fetchNews] issues
    exactly [N] [analyzeArticle] calls, one per article and in the order of
    the page; the batch completes normally whatever each call did; the
    merged state holds [N] articles, the [i]-th being the [i]-th loaded
    article with three properties written over it: [aiSummary],
    [marketImpact] and [confidence] are [null] when its call rejected, and
    the key insights, the market impact and the confidence the call
    returned when it resolved.  Every other property is the loaded
    article's. *)
Theorem fetchNews_enrichment
    (network : forall s : Shape, nat -> HttpCall -> NetReply s)
    (query : option string) (page : Z) (w : World)
    (newsData : NewsResponse.t) (log1 : list HttpCall) :
  api.getNews network query page articlesPerPage None (calls w)
  = (Normal newsData, log1) ->
  (0 < length (NewsResponse.articles newsData))%nat ->
  let articles := NewsResponse.articles newsData in
  let w' := snd (Home.fetchNews network query page w) in
  fst (Home.fetchNews network query page w) = Normal tt
  /\ log1 = calls w ++ [call_of (GetNews query page articlesPerPage None)]
  /\ calls w' = log1 ++ map analyze_call articles
  /\ length (map analyze_call articles) = length articles
  /\ length (newsArticles (view w')) = length articles
  /\ forall (i : nat) (article : JsObject),
       articles !! i = Some article ->
       exists shown : JsObject,
         newsArticles (view w') !! i = Some shown
         /\ (forall key : string,
               key <> "aiSummary" -> key <> "marketImpact" ->
               key <> "confidence" ->
               shown !! key = article !! key)
         /\ match
              fst (api.analyzeArticle network (prop article "content")
                     (prop article "title")
                     (log1 ++ map analyze_call (take i articles)))
            with
            | Normal analysis =>
                shown !! "aiSummary"
                = Some (VStr (NewsAnalysis.key_insights analysis))
                /\ shown !! "marketImpact"
                   = Some (VStr (NewsAnalysis.market_impact analysis))
                /\ shown !! "confidence"
                   = Some (VNum (NewsAnalysis.agno_confidence analysis))
            | Thrown _ =>
                shown !! "aiSummary" = Some VNull
                /\ shown !! "marketImpact" = Some VNull
                /\ shown !! "confidence" = Some VNull
            end.
Proof.
  intros Hnews HN. cbv zeta.
  rewrite (fetchNews_run network query page w newsData log1 Hnews).
  cbn [fst snd view calls newsArticles].
  split; [done |]. split.
  { pose proof (invoke_log network (GetNews query page articlesPerPage None)
                  (calls w)) as Hlog.
    cbn [invoke] in Hlog. by rewrite Hnews in Hlog. }
  split; [done |]. split; [apply length_map |].
  split; [apply enrich_from_length |].
  intros i article Hi. rewrite (enrich_from_lookup network log1 _ i article Hi).
  eexists. split; [reflexivity |].
  destruct (fst (api.analyzeArticle network _ _ _)) as [analysis | e];
    cbn [merged]; unfold with_enrichment;
    (split;
     [ intros key Hsummary Himpact Hconfidence; by rewrite !lookup_insert_ne
     | split; [| split];
       [ by rewrite lookup_insert_ne, lookup_insert_ne, lookup_insert_eq
       | by rewrite lookup_insert_ne, lookup_insert_eq
       | by rewrite lookup_insert_eq ] ]).
Qed.

Lemma fetchNews_enrichment_witness :
  api.getNews sample_network None 1 articlesPerPage None (calls fresh_world)
  = (Normal sample_news, [call_of (GetNews None 1 articlesPerPage None)])
  /\ (0 < length (NewsResponse.articles sample_news))%nat
  /\ fst (Home.fetchNews sample_network None 1 fresh_world) = Normal tt
  /\ calls (snd (Home.fetchNews sample_network None 1 fresh_world))
     = [ call_of (GetNews None 1 articlesPerPage None);
         analyze_call (sample_article 1 "Cotton prices"
                         (VStr "Summary made by the backend"));
         analyze_call (sample_article 2 "Factory safety" VNull) ]
  /\ (exists shown : JsObject,
        newsArticles (view (snd (Home.fetchNews sample_network None 1 fresh_world)))
        !! 0%nat = Some shown
        /\ shown !! "title" = Some (VStr "Cotton prices")
        /\ shown !! "aiSummary" = Some (VStr "Prices up")
        /\ shown !! "marketImpact" = Some (VStr "high")
        /\ shown !! "confidence" = Some (VNum (9 # 10)%Q))
  /\ (exists shown : JsObject,
        newsArticles (view (snd (Home.fetchNews sample_network None 1 fresh_world)))
        !! 1%nat = Some shown
        /\ shown !! "title" = Some (VStr "Factory safety")
        /\ shown !! "aiSummary" = Some VNull
        /\ shown !! "marketImpact" = Some VNull
        /\ shown !! "confidence" = Some VNull).
Proof.
  assert (Hnews :
    api.getNews sample_network None 1 articlesPerPage None (calls fresh_world)
    = (Normal sample_news, [call_of (GetNews None 1 articlesPerPage None)]))
    by (vm_compute; reflexivity).
  assert (HN : (0 < length (NewsResponse.articles sample_news))%nat) by (cbn; lia).
  destruct (fetchNews_enrichment sample_network None 1 fresh_world _ _ Hnews HN)
    as (Hret & _ & Hcalls & _ & _ & Hmerge).
  split; [exact Hnews |]. split; [exact HN |]. split; [exact Hret |].
  split; [exact Hcalls |]. split.
  - destruct (Hmerge 0%nat _ eq_refl) as (shown & Hshown & Hframe & Hdata).
    exists shown. split; [exact Hshown |]. split; [| exact Hdata].
    rewrite (Hframe "title") by discriminate. reflexivity.
  - destruct (Hmerge 1%nat _ eq_refl) as (shown & Hshown & Hframe & Hdata).
    exists shown. split; [exact Hshown |]. split; [| exact Hdata].
    rewrite (Hframe "title") by discriminate. reflexivity.
Defined.

Lemma with_enrichment_other (article : JsObject) (x y z : JsVal) (key : string) :
  key <> "aiSummary" -> key <> "marketImpact" -> key <> "confidence" ->
  with_enrichment article x y z !! key = article !! key.
Proof.
  intros H1 H2 H3. unfold with_enrichment.
  by rewrite !lookup_insert_ne.
Qed.

Lemma declared_field_not_written (field : string) :
  field ∈ NewsArticle_fields ->
  field <> "aiSummary" /\ field <> "marketImpact" /\ field <> "confidence".
Proof.
  unfold NewsArticle_fields. intros Hin.
  repeat (apply elem_of_cons in Hin as [-> | Hin]; [by repeat split |]).
  by apply elem_of_nil in Hin.
Qed.

(** C9.  The merge after enrichment writes the keys [aiSummary],
    [marketImpact] and [confidence], none of which is a field of
    [NewsArticle]; every article of the loaded page keeps, in the merged
    state, the [ai_summary], [market_impact] and [confidence_score] it was
    fetched with (as it keeps every declared field). *)
Theorem merge_keeps_declared_fields
    (network : forall s : Shape, nat -> HttpCall -> NetReply s)
    (query : option string) (page : Z) (w : World)
    (newsData : NewsResponse.t) (log1 : list HttpCall) :
  api.getNews network query page articlesPerPage None (calls w)
  = (Normal newsData, log1) ->
  let articles := NewsResponse.articles newsData in
  let w' := snd (Home.fetchNews network query page w) in
  (("aiSummary" ∉ NewsArticle_fields)
   /\ ("marketImpact" ∉ NewsArticle_fields)
   /\ ("confidence" ∉ NewsArticle_fields))
  /\ length (newsArticles (view w')) = length articles
  /\ forall (i : nat) (article : JsObject),
       articles !! i = Some article ->
       exists shown : JsObject,
         newsArticles (view w') !! i = Some shown
         /\ shown !! "ai_summary" = article !! "ai_summary"
         /\ shown !! "market_impact" = article !! "market_impact"
         /\ shown !! "confidence_score" = article !! "confidence_score"
         /\ (forall field : string,
               field ∈ NewsArticle_fields -> shown !! field = article !! field)
         /\ is_Some (shown !! "aiSummary")
         /\ is_Some (shown !! "marketImpact")
         /\ is_Some (shown !! "confidence").
Proof.
  intros Hnews. cbv zeta.
  rewrite (fetchNews_run network query page w newsData log1 Hnews).
  cbn [fst snd view calls newsArticles].
  split.
  { repeat split; intros Hin; apply declared_field_not_written in Hin;
      by destruct Hin as (? & ? & ?). }
  split; [apply enrich_from_length |].
  intros i article Hi. rewrite (enrich_from_lookup network log1 _ i article Hi).
  eexists; split; [reflexivity |].
  destruct (fst (api.analyzeArticle network _ _ _)); cbn [merged];
    (repeat split;
     [ by apply with_enrichment_other
     | by apply with_enrichment_other
     | by apply with_enrichment_other
     | intros field Hin; apply declared_field_not_written in Hin as (? & ? & ?);
       by apply with_enrichment_other
     | unfold with_enrichment; by rewrite lookup_insert_ne, lookup_insert_ne, lookup_insert_eq
     | unfold with_enrichment; by rewrite lookup_insert_ne, lookup_insert_eq
     | unfold with_enrichment; by rewrite lookup_insert_eq ]).
Qed.

Lemma merge_keeps_declared_fields_witness :
  api.getNews sample_network None 1 articlesPerPage None (calls fresh_world)
  = (Normal sample_news, [call_of (GetNews None 1 articlesPerPage None)])
  /\ exists shown : JsObject,
       newsArticles (view (snd (Home.fetchNews sample_network None 1 fresh_world)))
       !! 0%nat = Some shown
       /\ shown !! "ai_summary"
          = sample_article 1 "Cotton prices" (VStr "Summary made by the backend")
            !! "ai_summary".
Proof.
  assert (Hnews :
    api.getNews sample_network None 1 articlesPerPage None (calls fresh_world)
    = (Normal sample_news, [call_of (GetNews None 1 articlesPerPage None)]))
    by (vm_compute; reflexivity).
  split; [exact Hnews |].
  destruct (merge_keeps_declared_fields sample_network None 1 fresh_world _ _ Hnews)
    as (_ & _ & Hkeep).
  destruct (Hkeep 0%nat _ eq_refl) as (shown & Hshown & Hsummary & _).
  exists shown. split; [exact Hshown | exact Hsummary].
Defined.


(* ================================================================== *)
(** * Further properties of the API client                             *)
(* ================================================================== *)

Lemma read_body_delivered {s : Shape} (label : string) (timeout : Z)
    (reply : NetReply s) (response : Response s) :
  latency reply < timeout -> outcome reply = inl response ->
  read_body label (handed_back timeout reply)
  = (if negb (ok response)
     then Thrown (Error (label +:+ pretty (status response) +:+ " "
                         +:+ statusText response))
     else match json_body response with
          | Some v => Normal v
          | None => Thrown SyntaxError
          end).
Proof.
  intros Hearly Hout. unfold handed_back.
  by rewrite (proj2 (Z.leb_gt _ _) Hearly), Hout.
Qed.

Lemma read_body_failed {s : Shape} (label : string) (timeout : Z)
    (reply : NetReply s) (error : JsObject) :
  latency reply < timeout -> outcome reply = inr error ->
  read_body label (handed_back timeout reply)
  = (if is_AbortError error
     then Thrown (Error ("Request timeout after " +:+ pretty timeout +:+ "ms"))
     else Thrown error).
Proof.
  intros Hearly Hout. unfold handed_back.
  rewrite (proj2 (Z.leb_gt _ _) Hearly), Hout.
  by destruct (is_AbortError error).
Qed.

(** What a method other than [healthCheck] resolves to. *)
Lemma invoke_value
    (network : forall s : Shape, nat -> HttpCall -> NetReply s)
    (c : ApiCall) (log : list HttpCall) :
  c <> HealthCheck ->
  exists label : string,
    forall v : payload (shape_of c),
      read_body label
        (handed_back (abort_after (call_of c))
           (network (shape_of c) (length log) (call_of c)))
      = Normal v ->
      exists r : result_of c,
        fst (invoke network c log) = Normal r /\ as_payload c r = Some v.
Proof.
  intros Hc. destruct c; try congruence;
    cbn [invoke call_of shape_of abort_after as_payload];
    unfold api.getNews, api.getNewsBySource, api.getSources,
      api.fetchNewsFromSources, api.getHeadlines, api.getTrendingTopics,
      api.getMarketInsights, api.analyzeArticle, api.getSentimentAnalysis;
    cbv zeta; eexists; intros v Hv; rewrite json_method_run; cbn [fst];
    rewrite ?getNews_params; (eexists; split; [exact Hv | reflexivity]).
Qed.

(** X1.  A method of [api] other than [healthCheck] hands its caller the
    body the backend sent, unchanged, whenever the response arrives before
    the deadline with a status in 200-299 and a body that is JSON. *)
Theorem api_call_resolves_with_body
    (network : forall s : Shape, nat -> HttpCall -> NetReply s)
    (c : ApiCall) (log : list HttpCall)
    (response : Response (shape_of c)) (v : payload (shape_of c)) :
  c <> HealthCheck ->
  delivered (call_of c) (network (shape_of c) (length log) (call_of c)) response ->
  ok response = true ->
  json_body response = Some v ->
  exists r : result_of c,
    fst (invoke network c log) = Normal r /\ as_payload c r = Some v.
Proof.
  intros Hc [Hearly Hout] Hok Hbody.
  destruct (invoke_value network c log Hc) as (label & Hvalue).
  apply Hvalue. rewrite (read_body_delivered label _ _ response Hearly Hout).
  by rewrite Hok, Hbody.
Qed.

Lemma api_call_resolves_with_body_witness :
  GetSources <> HealthCheck
  /\ delivered (call_of GetSources)
       (healthy_network SSources 0 (call_of GetSources))
       {| status := 200; statusText := "OK"; json_body := Some (sample_sources : payload SSources) |}
  /\ exists r : SourcesResponse.t,
       fst (api.getSources healthy_network []) = Normal r
       /\ Some r = Some sample_sources.
Proof.
  assert (Hne : GetSources <> HealthCheck) by discriminate.
  assert (Hd : delivered (call_of GetSources)
                 (healthy_network SSources 0 (call_of GetSources))
                 {| status := 200; statusText := "OK";
                    json_body := Some (sample_sources : payload SSources) |})
    by (split; [cbn; lia | reflexivity]).
  split; [exact Hne |]. split; [exact Hd |].
  exact (api_call_resolves_with_body healthy_network GetSources [] _ sample_sources
           Hne Hd eq_refl eq_refl).
Defined.

(** X2.  The two remaining ways a method other than [healthCheck] fails.
    A network failure before the deadline reaches the caller as the very
    error [fetch] rejected with, unless that error is named [AbortError],
    which is reported as a timeout.  A response in 200-299 whose body is
    not JSON rejects with the error of [response.json()], an error named
    [SyntaxError] (its message is the engine's). *)
Theorem api_call_other_failures
    (network : forall s : Shape, nat -> HttpCall -> NetReply s)
    (c : ApiCall) (log : list HttpCall) :
  c <> HealthCheck ->
  let call := call_of c in
  let reply := network (shape_of c) (length log) call in
  (forall error : JsObject,
     failed call reply error -> is_AbortError error = false ->
     fst (invoke network c log) = Thrown error)
  /\ (forall error : JsObject,
        failed call reply error -> is_AbortError error = true ->
        rejects_with (fst (invoke network c log))
          (pretty (abort_after call) +:+ "ms"))
  /\ (forall response : Response (shape_of c),
        delivered call reply response -> ok response = true ->
        json_body response = None ->
        exists e : JsObject,
          fst (invoke network c log) = Thrown e
          /\ prop e "name" = VStr "SyntaxError").
Proof.
  intros Hc. cbv zeta.
  destruct (invoke_rejection network c log Hc) as (label & Hrej).
  assert (Hthrown : forall e : JsObject,
            rejection (fst (invoke network c log)) = Some e ->
            fst (invoke network c log) = Thrown e).
  { intros e. destruct (fst (invoke network c log)); cbn; congruence. }
  split; [| split].
  - intros error [Hearly Hout] Hname. apply Hthrown. rewrite Hrej.
    rewrite (read_body_failed label _ _ error Hearly Hout). by rewrite Hname.
  - intros error [Hearly Hout] Hname. apply rejects_with_rejection. rewrite Hrej.
    rewrite (read_body_failed label _ _ error Hearly Hout). rewrite Hname.
    cbn [rejection]. eexists; split; [reflexivity |].
    unfold Error. rewrite message_of_mkError.
    exists "Request timeout after ", "". by rewrite append_empty_r.
  - intros response [Hearly Hout] Hok Hbody. exists SyntaxError.
    split; [| reflexivity]. apply Hthrown. rewrite Hrej.
    rewrite (read_body_delivered label _ _ response Hearly Hout).
    by rewrite Hok, Hbody.
Qed.

Lemma api_call_other_failures_witness :
  GetSources <> HealthCheck
  /\ failed (call_of GetSources)
       (unreachable_network SSources 0 (call_of GetSources))
       (mkError "TypeError" "Failed to fetch")
  /\ fst (api.getSources unreachable_network [])
     = Thrown (mkError "TypeError" "Failed to fetch")
  /\ exists e : JsObject,
       fst (api.getSentimentAnalysis healthy_network "fine" []) = Thrown e
       /\ prop e "name" = VStr "SyntaxError".
Proof.
  assert (Hne : GetSources <> HealthCheck) by discriminate.
  assert (Hne' : GetSentimentAnalysis "fine" <> HealthCheck) by discriminate.
  assert (Hf : failed (call_of GetSources)
                 (unreachable_network SSources 0 (call_of GetSources))
                 (mkError "TypeError" "Failed to fetch"))
    by (split; [cbn; lia | reflexivity]).
  split; [exact Hne |]. split; [exact Hf |]. split.
  - exact (proj1 (api_call_other_failures unreachable_network GetSources [] Hne)
             _ Hf eq_refl).
  - refine (proj2 (proj2 (api_call_other_failures healthy_network
                            (GetSentimentAnalysis "fine") [] Hne'))
              {| status := 200; statusText := "OK"; json_body := None |} _ _ _).
    + split; [cbn; lia | reflexivity].
    + reflexivity.
    + reflexivity.
Defined.

(* ================================================================== *)
(** * Further properties of the page                                   *)
(* ================================================================== *)

Section PageRuns.

Variable network : forall s : Shape, nat -> HttpCall -> NetReply s.

(** [fetchNewsBySource] once its request rejected. *)
Lemma fetchNewsBySource_failed (sourceId : string) (page : Z) (w : World)
    (e : JsObject) (log1 : list HttpCall) :
  (if String.eqb sourceId "all"
   then api.getNews network None page articlesPerPage None
   else api.getNewsBySource network sourceId page articlesPerPage) (calls w)
  = (Thrown e, log1) ->
  Home.fetchNewsBySource network sourceId page w
  = (Normal tt,
     {| view :=
          {| searchQuery := searchQuery (view w);
             newsArticles := newsArticles (view w);
             sources := sources (view w);
             selectedSource := selectedSource (view w);
             loading := false;
             fetchingNews := fetchingNews (view w);
             error := Some "Failed to fetch news. Please try again.";
             currentPage := currentPage (view w);
             totalPages := totalPages (view w);
             totalArticles := totalArticles (view w) |};
        calls := log1 |}).
Proof.
  intros Hnews. unfold Home.fetchNewsBySource. run_page.
  destruct (String.eqb sourceId "all"); run_page; rewrite Hnews; reflexivity.
Qed.

(** What [fetchNewsBySource] leaves alone, whatever the backend does. *)
Lemma fetchNewsBySource_frame (sourceId : string) (page : Z) (w : World) :
  exists v : View,
    Home.fetchNewsBySource network sourceId page w
    = (Normal tt,
       {| view := v;
          calls :=
            calls w
            ++ [call_of (if String.eqb sourceId "all"
                         then GetNews None page articlesPerPage None
                         else GetNewsBySource sourceId page articlesPerPage)] |})
    /\ loading v = false
    /\ fetchingNews v = fetchingNews (view w)
    /\ searchQuery v = searchQuery (view w)
    /\ selectedSource v = selectedSource (view w)
    /\ sources v = sources (view w)
    /\ (currentPage v = page \/ currentPage v = currentPage (view w)).
Proof.
  destruct (fetchNewsBySource_run network sourceId page w)
    as (v & Hrun & _ & _ & _ & _).
  destruct ((if String.eqb sourceId "all"
             then api.getNews network None page articlesPerPage None
             else api.getNewsBySource network sourceId page articlesPerPage)
              (calls w)) as [[newsData | e] log1] eqn:Hreq.
  - rewrite (fetchNewsBySource_loaded network sourceId page w newsData log1 Hreq) in Hrun.
    injection Hrun as <- Hlog. eexists. split.
    + rewrite (fetchNewsBySource_loaded network sourceId page w newsData log1 Hreq).
      by rewrite Hlog.
    + cbn. repeat split; auto.
  - rewrite (fetchNewsBySource_failed sourceId page w e log1 Hreq) in Hrun.
    injection Hrun as <- Hlog. eexists. split.
    + rewrite (fetchNewsBySource_failed sourceId page w e log1 Hreq).
      by rewrite Hlog.
    + cbn. repeat split; auto.
Qed.

(** [fetchNews] once [getNews] rejected. *)
Lemma fetchNews_failed (query : option string) (page : Z) (w : World)
    (e : JsObject) (log1 : list HttpCall) :
  api.getNews network query page articlesPerPage None (calls w) = (Thrown e, log1) ->
  Home.fetchNews network query page w
  = (Normal tt,
     {| view :=
          {| searchQuery := searchQuery (view w);
             newsArticles := newsArticles (view w);
             sources := sources (view w);
             selectedSource := selectedSource (view w);
             loading := false;
             fetchingNews := fetchingNews (view w);
             error := Some "Failed to fetch news. Please try again.";
             currentPage := currentPage (view w);
             totalPages := totalPages (view w);
             totalArticles := totalArticles (view w) |};
        calls := log1 |}).
Proof.
  intros Hnews. unfold Home.fetchNews. run_page. rewrite Hnews. reflexivity.
Qed.

(** The three ways [fetchInitialData] can go. *)
Lemma fetchInitialData_run (w : World) :
  let probe := call_of HealthCheck in
  let v := view w in
  Home.fetchInitialData network w
  = match api.healthCheck network (calls w) with
    | (Normal true, log1) =>
        match api.getSources network log1 with
        | (Normal sourcesData, log2) =>
            (Normal tt,
             {| view :=
                  {| searchQuery := searchQuery v; newsArticles := newsArticles v;
                     sources := SourcesResponse.sources sourcesData;
                     selectedSource := selectedSource v; loading := false;
                     fetchingNews := fetchingNews v; error := None;
                     currentPage := currentPage v; totalPages := totalPages v;
                     totalArticles := totalArticles v |};
                calls := log2 |})
        | (Thrown _, log2) =>
            (Normal tt,
             {| view :=
                  {| searchQuery := searchQuery v; newsArticles := newsArticles v;
                     sources := ∅;
                     selectedSource := selectedSource v; loading := false;
                     fetchingNews := fetchingNews v; error := None;
                     currentPage := currentPage v; totalPages := totalPages v;
                     totalArticles := totalArticles v |};
                calls := log2 |})
        end
    | (_, log1) =>
        (Normal tt,
         {| view :=
              {| searchQuery := searchQuery v; newsArticles := newsArticles v;
                 sources := sources v;
                 selectedSource := selectedSource v; loading := false;
                 fetchingNews := fetchingNews v;
                 error := Some "Backend server is not responding. Please ensure the backend is running on http://localhost:8000";
                 currentPage := currentPage v; totalPages := totalPages v;
                 totalArticles := totalArticles v |};
            calls := log1 |})
    end.
Proof.
  cbv zeta. unfold Home.fetchInitialData. run_page.
  rewrite healthCheck_run.
  destruct (match handed_back 20000 _ with
            | Normal response => ok response
            | Thrown _ => false
            end); cbn [negb]; run_page; [| reflexivity].
  destruct (api.getSources network _) as [[sourcesData | e] log2]; reflexivity.
Qed.

(** [handleSearch] with a query that is not blank. *)
Lemma handleSearch_query_run (rendered : View) (w : World) :
  all_whitespace (searchQuery rendered) = false ->
  let v := view w in
  Home.handleSearch network rendered w
  = match api.getNews network (Some (searchQuery rendered)) 1 articlesPerPage
            (Home.source_filter rendered) (calls w) with
    | (Normal newsData, log1) =>
        (Normal tt,
         {| view :=
              {| searchQuery := searchQuery v;
                 newsArticles := NewsResponse.articles newsData;
                 sources := sources v; selectedSource := selectedSource v;
                 loading := false; fetchingNews := fetchingNews v;
                 error := error v; currentPage := 1;
                 totalPages := ceil_div (NewsResponse.total newsData) articlesPerPage;
                 totalArticles := NewsResponse.total newsData |};
            calls := log1 |})
    | (Thrown _, log1) =>
        (Normal tt,
         {| view :=
              {| searchQuery := searchQuery v; newsArticles := newsArticles v;
                 sources := sources v; selectedSource := selectedSource v;
                 loading := false; fetchingNews := fetchingNews v;
                 error := Some "Failed to search news. Please try again.";
                 currentPage := 1; totalPages := totalPages v;
                 totalArticles := totalArticles v |};
            calls := log1 |})
    end.
Proof.
  intros Hquery. cbv zeta. unfold Home.handleSearch.
  rewrite truthy_trim, Hquery. cbn [negb]. run_page.
  by destruct (api.getNews network _ 1 articlesPerPage _ (calls w)) as [[nd | e] log1].
Qed.

(** [handlePageChange] for a page in range while a query is typed. *)
Lemma handlePageChange_query_run (rendered : View) (page : Z) (w : World) :
  1 <= page <= totalPages rendered ->
  all_whitespace (searchQuery rendered) = false ->
  let v := view w in
  Home.handlePageChange network rendered page w
  = match api.getNews network (Some (searchQuery rendered)) page articlesPerPage
            (Home.source_filter rendered) (calls w) with
    | (Normal newsData, log1) =>
        (Normal tt,
         {| view :=
              {| searchQuery := searchQuery v;
                 newsArticles := NewsResponse.articles newsData;
                 sources := sources v; selectedSource := selectedSource v;
                 loading := false; fetchingNews := fetchingNews v;
                 error := error v; currentPage := page;
                 totalPages := totalPages v; totalArticles := totalArticles v |};
            calls := log1 |})
    | (Thrown _, log1) =>
        (Normal tt,
         {| view :=
              {| searchQuery := searchQuery v; newsArticles := newsArticles v;
                 sources := sources v; selectedSource := selectedSource v;
                 loading := false; fetchingNews := fetchingNews v;
                 error := Some "Failed to fetch news. Please try again.";
                 currentPage := page; totalPages := totalPages v;
                 totalArticles := totalArticles v |};
            calls := log1 |})
    end.
Proof.
  intros [Hlow Hhigh] Hquery. cbv zeta. unfold Home.handlePageChange.
  rewrite (proj2 (Z.leb_le _ _) Hlow), (proj2 (Z.leb_le _ _) Hhigh).
  rewrite truthy_trim, Hquery. cbn [negb andb]. run_page.
  by destruct (api.getNews network _ page articlesPerPage _ (calls w))
    as [[nd | e] log1].
Qed.

(** [handlePageChange] for a page in range while the query is blank. *)
Lemma handlePageChange_browse_run (rendered : View) (page : Z) (w : World) :
  1 <= page <= totalPages rendered ->
  all_whitespace (searchQuery rendered) = true ->
  exists v : View,
    Home.handlePageChange network rendered page w
    = (Normal tt,
       {| view := v;
          calls :=
            calls w
            ++ [call_of (if String.eqb (selectedSource rendered) "all"
                         then GetNews None page articlesPerPage None
                         else GetNewsBySource (selectedSource rendered) page
                                articlesPerPage)] |})
    /\ loading v = false
    /\ currentPage v = page.
Proof.
  intros [Hlow Hhigh] Hblank. unfold Home.handlePageChange.
  rewrite (proj2 (Z.leb_le _ _) Hlow), (proj2 (Z.leb_le _ _) Hhigh).
  rewrite truthy_trim, Hblank. cbn [negb andb]. run_page.
  match goal with
  | |- context [Home.fetchNewsBySource network ?s page ?w1] =>
      destruct (fetchNewsBySource_frame s page w1)
        as (v & Hrun & Hloading & _ & _ & _ & _ & Hpage)
  end.
  simpl_page. exists v. rewrite Hrun. split; [done |]. split; [done |].
  by destruct Hpage.
Qed.

(** [fetchNewsFromSources] once the ingestion request rejected. *)
Lemma fetchNewsFromSources_failed (rendered : View) (w : World)
    (e : JsObject) (log1 : list HttpCall) :
  api.fetchNewsFromSources network 15 (calls w) = (Thrown e, log1) ->
  Home.fetchNewsFromSources network rendered w
  = (Normal tt,
     {| view :=
          {| searchQuery := searchQuery (view w);
             newsArticles := newsArticles (view w);
             sources := sources (view w);
             selectedSource := selectedSource (view w);
             loading := loading (view w);
             fetchingNews := false;
             error := Some "Failed to fetch news from sources. Please try again.";
             currentPage := currentPage (view w);
             totalPages := totalPages (view w);
             totalArticles := totalArticles (view w) |};
        calls := log1 |}).
Proof.
  intros Hpost. unfold Home.fetchNewsFromSources. run_page. by rewrite Hpost.
Qed.

(** [fetchNewsFromSources] once the ingestion request resolved. *)
Lemma fetchNewsFromSources_ingested (rendered : View) (w : World)
    (result : FetchNewsResult.t) (log1 : list HttpCall) :
  api.fetchNewsFromSources network 15 (calls w) = (Normal result, log1) ->
  exists v : View,
    Home.fetchNewsFromSources network rendered w
    = (Normal tt,
       {| view := v;
          calls :=
            log1
            ++ [call_of (if String.eqb (selectedSource rendered) "all"
                         then GetNews None 1 articlesPerPage None
                         else GetNewsBySource (selectedSource rendered) 1
                                articlesPerPage)] |})
    /\ error v = None
    /\ fetchingNews v = false
    /\ loading v = false
    /\ currentPage v = 1.
Proof.
  intros Hpost. unfold Home.fetchNewsFromSources. run_page. rewrite Hpost. run_page.
  match goal with
  | |- context [Home.fetchNewsBySource network ?s 1 ?w1] =>
      destruct (fetchNewsBySource_frame s 1 w1)
        as (v & Hrun & Hloading & _ & _ & _ & _ & Hpage)
  end.
  simpl_page. rewrite Hrun. run_page. eexists. split; [reflexivity |].
  cbn. repeat split; [done | by destruct Hpage].
Qed.

(** Each handler completes normally; where it ends. *)
Lemma fetchInitialData_settles (w : World) :
  exists w' : World,
    Home.fetchInitialData network w = (Normal tt, w')
    /\ loading (view w') = false.
Proof.
  rewrite fetchInitialData_run.
  destruct (api.healthCheck network (calls w)) as [[[|] | e] log1];
    [| by eexists | by eexists].
  destruct (api.getSources network log1) as [[sourcesData | e] log2]; by eexists.
Qed.

Lemma fetchNews_settles (query : option string) (page : Z) (w : World) :
  exists w' : World,
    Home.fetchNews network query page w = (Normal tt, w')
    /\ loading (view w') = false.
Proof.
  destruct (api.getNews network query page articlesPerPage None (calls w))
    as [[newsData | e] log1] eqn:Hnews.
  - rewrite (fetchNews_run network query page w newsData log1 Hnews). by eexists.
  - rewrite (fetchNews_failed query page w e log1 Hnews). by eexists.
Qed.

Lemma fetchNewsBySource_settles (sourceId : string) (page : Z) (w : World) :
  exists w' : World,
    Home.fetchNewsBySource network sourceId page w = (Normal tt, w')
    /\ loading (view w') = false.
Proof.
  destruct (fetchNewsBySource_frame sourceId page w) as (v & Hrun & Hloading & _).
  rewrite Hrun. by eexists.
Qed.

Lemma fetchNewsFromSources_settles (rendered : View) (w : World) :
  exists w' : World,
    Home.fetchNewsFromSources network rendered w = (Normal tt, w')
    /\ fetchingNews (view w') = false.
Proof.
  destruct (api.fetchNewsFromSources network 15 (calls w))
    as [[result | e] log1] eqn:Hpost.
  - destruct (fetchNewsFromSources_ingested rendered w result log1 Hpost)
      as (v & Hrun & _ & Hfetching & _).
    rewrite Hrun. by eexists.
  - rewrite (fetchNewsFromSources_failed rendered w e log1 Hpost). by eexists.
Qed.

Lemma handleSourceChange_settles (sourceId : string) (w : World) :
  exists w' : World,
    Home.handleSourceChange network sourceId w = (Normal tt, w')
    /\ loading (view w') = false.
Proof.
  unfold Home.handleSourceChange. run_page.
  match goal with
  | |- context [Home.fetchNewsBySource network sourceId 1 ?w1] =>
      destruct (fetchNewsBySource_frame sourceId 1 w1) as (v & Hrun & Hloading & _)
  end.
  rewrite Hrun. by eexists.
Qed.

Lemma handleSearch_settles (rendered : View) (w : World) :
  exists w' : World,
    Home.handleSearch network rendered w = (Normal tt, w')
    /\ loading (view w') = false.
Proof.
  destruct (all_whitespace (searchQuery rendered)) eqn:Hblank.
  - unfold Home.handleSearch. rewrite truthy_trim, Hblank. cbn [negb]. run_page.
    match goal with
    | |- context [Home.fetchNewsBySource network ?s 1 ?w1] =>
        destruct (fetchNewsBySource_frame s 1 w1) as (v & Hrun & Hloading & _)
    end.
    rewrite Hrun. by eexists.
  - rewrite (handleSearch_query_run rendered w Hblank).
    destruct (api.getNews network _ 1 articlesPerPage _ (calls w))
      as [[newsData | e] log1]; by eexists.
Qed.

Lemma handlePageChange_settles (rendered : View) (page : Z) (w : World) :
  exists w' : World,
    Home.handlePageChange network rendered page w = (Normal tt, w')
    /\ (1 <= page <= totalPages rendered ->
        loading (view w') = false
        /\ currentPage (view w') = page
        /\ length (calls w') = S (length (calls w))).
Proof.
  destruct (Z.leb_spec 1 page) as [Hlow | Hlow];
    [destruct (Z.leb_spec page (totalPages rendered)) as [Hhigh | Hhigh] |].
  - destruct (all_whitespace (searchQuery rendered)) eqn:Hblank.
    + destruct (handlePageChange_browse_run rendered page w (conj Hlow Hhigh) Hblank)
        as (v & Hrun & Hloading & Hpage).
      rewrite Hrun. eexists. split; [reflexivity |]. intros _. cbn [view calls].
      split; [done |]. split; [done |]. rewrite length_app. cbn. lia.
    + rewrite (handlePageChange_query_run rendered page w (conj Hlow Hhigh) Hblank).
      pose proof (invoke_log network
                    (GetNews (Some (searchQuery rendered)) page articlesPerPage
                       (Home.source_filter rendered)) (calls w)) as Hlog.
      cbn [invoke] in Hlog.
      destruct (api.getNews network _ page articlesPerPage _ (calls w))
        as [[newsData | e] log1]; cbn [snd] in Hlog; subst log1;
        (eexists; split; [reflexivity |]); intros _;
        cbn [view calls loading currentPage];
        (split; [done |]); (split; [done |]); rewrite length_app; cbn; lia.
  - exists w. split; [| lia]. unfold Home.handlePageChange.
    rewrite (proj2 (Z.leb_gt _ _) Hhigh). by rewrite andb_false_r.
  - exists w. split; [| lia]. unfold Home.handlePageChange.
    by rewrite (proj2 (Z.leb_gt _ _) Hlow).
Qed.

End PageRuns.

(** X3.  No handler of the page ever rejects: whatever the backend and the
    network do, and whatever the state and the arguments, each of
    [fetchInitialData], [fetchNews], [fetchNewsBySource],
    [fetchNewsFromSources], [handleSourceChange], [handleSearch],
    [handleKeyPress] and [handlePageChange] completes normally (every
    failure of the API client is caught inside the handler). *)
Theorem handlers_never_reject
    (network : forall s : Shape, nat -> HttpCall -> NetReply s)
    (rendered : View) (w : World) (query : option string) (page : Z)
    (sourceId key : string) :
  fst (Home.fetchInitialData network w) = Normal tt
  /\ fst (Home.fetchNews network query page w) = Normal tt
  /\ fst (Home.fetchNewsBySource network sourceId page w) = Normal tt
  /\ fst (Home.fetchNewsFromSources network rendered w) = Normal tt
  /\ fst (Home.handleSourceChange network sourceId w) = Normal tt
  /\ fst (Home.handleSearch network rendered w) = Normal tt
  /\ fst (Home.handleKeyPress network rendered key w) = Normal tt
  /\ fst (Home.handlePageChange network rendered page w) = Normal tt.
Proof.
  destruct (fetchInitialData_settles network w) as (w1 & -> & _).
  destruct (fetchNews_settles network query page w) as (w2 & -> & _).
  destruct (fetchNewsBySource_settles network sourceId page w) as (w3 & -> & _).
  destruct (fetchNewsFromSources_settles network rendered w) as (w4 & -> & _).
  destruct (handleSourceChange_settles network sourceId w) as (w5 & -> & _).
  destruct (handlePageChange_settles network rendered page w) as (w7 & -> & _).
  unfold Home.handleKeyPress.
  destruct (handleSearch_settles network rendered w) as (w6 & Hsearch & _).
  rewrite Hsearch. cbn [fst].
  do 6 (split; [reflexivity |]). split; [| reflexivity].
  destruct (String.eqb key "Enter"); [by rewrite Hsearch | reflexivity].
Qed.

(** X4.  No handler leaves its progress flag on.  After
    [fetchInitialData], [fetchNews], [fetchNewsBySource],
    [handleSourceChange], [handleSearch] and a [handlePageChange] to a page
    in range, [loading] is [false]; after [fetchNewsFromSources],
    [fetchingNews] is [false].  This holds on success and on failure. *)
Theorem progress_flags_cleared
    (network : forall s : Shape, nat -> HttpCall -> NetReply s)
    (rendered : View) (w : World) (query : option string) (page : Z)
    (sourceId : string) :
  loading (view (snd (Home.fetchInitialData network w))) = false
  /\ loading (view (snd (Home.fetchNews network query page w))) = false
  /\ loading (view (snd (Home.fetchNewsBySource network sourceId page w))) = false
  /\ loading (view (snd (Home.handleSourceChange network sourceId w))) = false
  /\ loading (view (snd (Home.handleSearch network rendered w))) = false
  /\ (1 <= page <= totalPages rendered ->
      loading (view (snd (Home.handlePageChange network rendered page w))) = false)
  /\ fetchingNews (view (snd (Home.fetchNewsFromSources network rendered w))) = false.
Proof.
  destruct (fetchInitialData_settles network w) as (w1 & -> & H1).
  destruct (fetchNews_settles network query page w) as (w2 & -> & H2).
  destruct (fetchNewsBySource_settles network sourceId page w) as (w3 & -> & H3).
  destruct (fetchNewsFromSources_settles network rendered w) as (w4 & -> & H4).
  destruct (handleSourceChange_settles network sourceId w) as (w5 & -> & H5).
  destruct (handleSearch_settles network rendered w) as (w6 & -> & H6).
  destruct (handlePageChange_settles network rendered page w) as (w7 & -> & H7).
  cbn [snd]. repeat split; try done. intros Hrange. by destruct (H7 Hrange).
Qed.

Lemma progress_flags_cleared_witness :
  1 <= 2 <= totalPages (view_with "denim" "bbc" 5)
  /\ loading (view (snd (Home.handlePageChange down_network
                           (view_with "denim" "bbc" 5) 2 fresh_world))) = false
  /\ fetchingNews (view (snd (Home.fetchNewsFromSources down_network
                                (view_with "denim" "bbc" 5) fresh_world))) = false.
Proof.
  assert (Hrange : 1 <= 2 <= totalPages (view_with "denim" "bbc" 5)) by (cbn; lia).
  split; [exact Hrange |].
  destruct (progress_flags_cleared down_network (view_with "denim" "bbc" 5)
              fresh_world None 2 "bbc") as (_ & _ & _ & _ & _ & Hpage & Hingest).
  split; [exact (Hpage Hrange) | exact Hingest].
Defined.

(** X5.  [fetchInitialData] never loads articles and never shows its
    generic failure message.  It issues the health probe and at most the
    request for the source list, nothing else; it leaves the articles, the
    totals, the current page, the query and the selected source as they
    were; and the error it ends with is either unset or the
    backend-unavailable message (the outer [catch] is never reached). *)
Theorem fetchInitialData_scope
    (network : forall s : Shape, nat -> HttpCall -> NetReply s) (w : World) :
  let w' := snd (Home.fetchInitialData network w) in
  (calls w' = calls w ++ [call_of HealthCheck]
   \/ calls w' = calls w ++ [call_of HealthCheck; call_of GetSources])
  /\ newsArticles (view w') = newsArticles (view w)
  /\ totalArticles (view w') = totalArticles (view w)
  /\ totalPages (view w') = totalPages (view w)
  /\ currentPage (view w') = currentPage (view w)
  /\ searchQuery (view w') = searchQuery (view w)
  /\ selectedSource (view w') = selectedSource (view w)
  /\ (error (view w') = None
      \/ error (view w')
         = Some "Backend server is not responding. Please ensure the backend is running on http://localhost:8000").
Proof.
  cbv zeta. rewrite fetchInitialData_run.
  pose proof (invoke_log network HealthCheck (calls w)) as Hprobe.
  cbn [invoke] in Hprobe.
  destruct (api.healthCheck network (calls w)) as [[[|] | e] log1];
    cbn [snd] in Hprobe; subst log1.
  - pose proof (invoke_log network GetSources (calls w ++ [call_of HealthCheck]))
      as Hsources.
    cbn [invoke] in Hsources.
    destruct (api.getSources network _) as [[sourcesData | e] log2];
      cbn [snd] in Hsources; subst log2; cbn [snd view calls];
      (split; [right; by rewrite <- app_assoc |]); cbn; auto 10.
  - cbn. auto 10.
  - cbn. auto 10.
Qed.

(** X6.  On a healthy backend whose source list loads, [fetchInitialData]
    stores exactly the sources of the response, with no error, after two
    calls: the health probe and the request for the sources. *)
Theorem fetchInitialData_loads_sources
    (network : forall s : Shape, nat -> HttpCall -> NetReply s) (w : World)
    (log1 log2 : list HttpCall) (sourcesData : SourcesResponse.t) :
  api.healthCheck network (calls w) = (Normal true, log1) ->
  api.getSources network log1 = (Normal sourcesData, log2) ->
  let w' := snd (Home.fetchInitialData network w) in
  sources (view w') = SourcesResponse.sources sourcesData
  /\ error (view w') = None
  /\ loading (view w') = false
  /\ calls w' = calls w ++ [call_of HealthCheck; call_of GetSources].
Proof.
  intros Hhealth Hsources. cbv zeta. rewrite fetchInitialData_run.
  rewrite Hhealth, Hsources. cbn [snd view calls sources error loading].
  repeat split.
  pose proof (invoke_log network HealthCheck (calls w)) as Hprobe.
  pose proof (invoke_log network GetSources log1) as Hlist.
  cbn [invoke] in Hprobe, Hlist. rewrite Hhealth in Hprobe.
  rewrite Hsources in Hlist. cbn [snd] in Hprobe, Hlist.
  rewrite Hlist, Hprobe. by rewrite <- app_assoc.
Qed.

Lemma fetchInitialData_loads_sources_witness :
  api.healthCheck healthy_network (calls fresh_world)
  = (Normal true, [call_of HealthCheck])
  /\ api.getSources healthy_network [call_of HealthCheck]
     = (Normal sample_sources, [call_of HealthCheck; call_of GetSources])
  /\ sources (view (snd (Home.fetchInitialData healthy_network fresh_world)))
     = SourcesResponse.sources sample_sources
  /\ calls (snd (Home.fetchInitialData healthy_network fresh_world))
     = [call_of HealthCheck; call_of GetSources].
Proof.
  assert (H1 : api.healthCheck healthy_network (calls fresh_world)
               = (Normal true, [call_of HealthCheck])) by (vm_compute; reflexivity).
  assert (H2 : api.getSources healthy_network [call_of HealthCheck]
               = (Normal sample_sources, [call_of HealthCheck; call_of GetSources]))
    by (vm_compute; reflexivity).
  split; [exact H1 |]. split; [exact H2 |].
  destruct (fetchInitialData_loads_sources healthy_network fresh_world _ _ _ H1 H2)
    as (Hsrc & _ & _ & Hcalls).
  split; [exact Hsrc | exact Hcalls].
Defined.

(** X7.  [fetchNewsBySource] replaces the list only when its request
    resolves.  A rejected request leaves the articles, the totals and the
    current page as they were and sets the error to "Failed to fetch news.
    Please try again."; a resolved one stores the articles and the total
    of the response, makes the requested page current and clears any
    earlier error. *)
Theorem fetchNewsBySource_outcome
    (network : forall s : Shape, nat -> HttpCall -> NetReply s)
    (sourceId : string) (page : Z) (w : World) :
  let request :=
    (if String.eqb sourceId "all"
     then api.getNews network None page articlesPerPage None
     else api.getNewsBySource network sourceId page articlesPerPage) (calls w) in
  let w' := snd (Home.fetchNewsBySource network sourceId page w) in
  (forall e : JsObject,
     fst request = Thrown e ->
     error (view w') = Some "Failed to fetch news. Please try again."
     /\ newsArticles (view w') = newsArticles (view w)
     /\ totalArticles (view w') = totalArticles (view w)
     /\ totalPages (view w') = totalPages (view w)
     /\ currentPage (view w') = currentPage (view w))
  /\ (forall newsData : NewsResponse.t,
        fst request = Normal newsData ->
        error (view w') = None
        /\ newsArticles (view w') = NewsResponse.articles newsData
        /\ totalArticles (view w') = NewsResponse.total newsData
        /\ currentPage (view w') = page).
Proof.
  cbv zeta.
  destruct ((if String.eqb sourceId "all"
             then api.getNews network None page articlesPerPage None
             else api.getNewsBySource network sourceId page articlesPerPage)
              (calls w)) as [[newsData | e] log1] eqn:Hreq; cbn [fst].
  - rewrite (fetchNewsBySource_loaded network sourceId page w newsData log1 Hreq).
    split; [discriminate |]. intros nd [= <-]. by cbn.
  - rewrite (fetchNewsBySource_failed network sourceId page w e log1 Hreq).
    split; [| discriminate]. intros e' _. by cbn.
Qed.

Lemma fetchNewsBySource_outcome_witness :
  fst (api.getNewsBySource down_network "bbc" 2 articlesPerPage
         (calls {| view := view_with "" "bbc" 5; calls := [] |}))
  = Thrown (Error "Failed to fetch news from source: 503 Service Unavailable")
  /\ error (view (snd (Home.fetchNewsBySource down_network "bbc" 2
                         {| view := view_with "" "bbc" 5; calls := [] |})))
     = Some "Failed to fetch news. Please try again."
  /\ currentPage (view (snd (Home.fetchNewsBySource down_network "bbc" 2
                               {| view := view_with "" "bbc" 5; calls := [] |})))
     = 1
  /\ fst (api.getNews healthy_network None 1 articlesPerPage None
            (calls fresh_world)) = Normal sample_news
  /\ newsArticles (view (snd (Home.fetchNewsBySource healthy_network "all" 1
                                fresh_world)))
     = sample_articles.
Proof.
  assert (Hdown :
    fst (api.getNewsBySource down_network "bbc" 2 articlesPerPage
           (calls {| view := view_with "" "bbc" 5; calls := [] |}))
    = Thrown (Error "Failed to fetch news from source: 503 Service Unavailable"))
    by (vm_compute; reflexivity).
  assert (Hup :
    fst (api.getNews healthy_network None 1 articlesPerPage None (calls fresh_world))
    = Normal sample_news) by (vm_compute; reflexivity).
  destruct (fetchNewsBySource_outcome down_network "bbc" 2
              {| view := view_with "" "bbc" 5; calls := [] |}) as [Hfailed _].
  destruct (fetchNewsBySource_outcome healthy_network "all" 1 fresh_world)
    as [_ Hloaded].
  destruct (Hfailed _ Hdown) as (Herror & _ & _ & _ & Hpage).
  destruct (Hloaded _ Hup) as (_ & Harticles & _).
  split; [exact Hdown |]. split; [exact Herror |]. split; [exact Hpage |].
  split; [exact Hup | exact Harticles].
Defined.

(** X8.  When the ingestion request of [fetchNewsFromSources] (the POST to
    [/api/fetch-news], with 15 articles per source) rejects, the handler
    issues no other request: the list is not refreshed, the articles, the
    totals, the current page and the [loading] flag stay as they were, and
    the error is "Failed to fetch news from sources. Please try again.". *)
Theorem fetchNewsFromSources_rejected
    (network : forall s : Shape, nat -> HttpCall -> NetReply s)
    (rendered : View) (w : World) (e : JsObject) (log1 : list HttpCall) :
  api.fetchNewsFromSources network 15 (calls w) = (Thrown e, log1) ->
  let w' := snd (Home.fetchNewsFromSources network rendered w) in
  calls w' = calls w ++ [call_of (FetchNewsFromSources 15)]
  /\ error (view w') = Some "Failed to fetch news from sources. Please try again."
  /\ fetchingNews (view w') = false
  /\ newsArticles (view w') = newsArticles (view w)
  /\ totalArticles (view w') = totalArticles (view w)
  /\ totalPages (view w') = totalPages (view w)
  /\ currentPage (view w') = currentPage (view w)
  /\ loading (view w') = loading (view w).
Proof.
  intros Hpost. cbv zeta.
  rewrite (fetchNewsFromSources_failed network rendered w e log1 Hpost).
  pose proof (invoke_log network (FetchNewsFromSources 15) (calls w)) as Hlog.
  cbn [invoke] in Hlog. rewrite Hpost in Hlog. cbn [snd] in Hlog.
  cbn. by rewrite Hlog.
Qed.

Lemma fetchNewsFromSources_rejected_witness :
  api.fetchNewsFromSources down_network 15 (calls fresh_world)
  = (Thrown (Error "Failed to fetch news from sources: 503 Service Unavailable"),
     [call_of (FetchNewsFromSources 15)])
  /\ calls (snd (Home.fetchNewsFromSources down_network (view_with "" "bbc" 5)
                   fresh_world))
     = [call_of (FetchNewsFromSources 15)]
  /\ error (view (snd (Home.fetchNewsFromSources down_network (view_with "" "bbc" 5)
                         fresh_world)))
     = Some "Failed to fetch news from sources. Please try again.".
Proof.
  assert (Hpost :
    api.fetchNewsFromSources down_network 15 (calls fresh_world)
    = (Thrown (Error "Failed to fetch news from sources: 503 Service Unavailable"),
       [call_of (FetchNewsFromSources 15)])) by (vm_compute; reflexivity).
  split; [exact Hpost |].
  destruct (fetchNewsFromSources_rejected down_network (view_with "" "bbc" 5)
              fresh_world _ _ Hpost) as (Hcalls & Herror & _).
  split; [exact Hcalls | exact Herror].
Defined.

(** X9.  When the ingestion request of [fetchNewsFromSources] resolves,
    the handler refreshes page 1 of the selected source (one more request,
    unscoped for "all") and ends with the current page 1, [fetchingNews]
    off and no error.  The error is unset even when the refresh request
    itself rejected: the message [fetchNewsBySource] had set is cleared
    again, and the list shown is then the one from before. *)
Theorem fetchNewsFromSources_ingested_outcome
    (network : forall s : Shape, nat -> HttpCall -> NetReply s)
    (rendered : View) (w : World) (result : FetchNewsResult.t)
    (log1 : list HttpCall) :
  api.fetchNewsFromSources network 15 (calls w) = (Normal result, log1) ->
  let refresh :=
    (if String.eqb (selectedSource rendered) "all"
     then api.getNews network None 1 articlesPerPage None
     else api.getNewsBySource network (selectedSource rendered) 1 articlesPerPage)
      log1 in
  let w' := snd (Home.fetchNewsFromSources network rendered w) in
  calls w'
  = calls w
    ++ [ call_of (FetchNewsFromSources 15);
         call_of (if String.eqb (selectedSource rendered) "all"
                  then GetNews None 1 articlesPerPage None
                  else GetNewsBySource (selectedSource rendered) 1 articlesPerPage) ]
  /\ error (view w') = None
  /\ fetchingNews (view w') = false
  /\ currentPage (view w') = 1
  /\ (forall e : JsObject,
        fst refresh = Thrown e ->
        newsArticles (view w') = newsArticles (view w)
        /\ totalArticles (view w') = totalArticles (view w))
  /\ (forall newsData : NewsResponse.t,
        fst refresh = Normal newsData ->
        newsArticles (view w') = NewsResponse.articles newsData
        /\ totalArticles (view w') = NewsResponse.total newsData).
Proof.
  intros Hpost. cbv zeta.
  pose proof (invoke_log network (FetchNewsFromSources 15) (calls w)) as Hlog.
  cbn [invoke] in Hlog. rewrite Hpost in Hlog. cbn [snd] in Hlog.
  destruct (fetchNewsFromSources_ingested network rendered w result log1 Hpost)
    as (v & Hrun & Herror & Hfetching & _ & Hpage).
  rewrite Hrun. cbn [snd view calls].
  split; [by rewrite Hlog, <- app_assoc |].
  split; [done |]. split; [done |]. split; [done |].
  clear Herror Hfetching Hpage.
  unfold Home.fetchNewsFromSources in Hrun. revert Hrun. run_page.
  rewrite Hpost. run_page.
  destruct ((if String.eqb (selectedSource rendered) "all"
             then api.getNews network None 1 articlesPerPage None
             else api.getNewsBySource network (selectedSource rendered) 1
                    articlesPerPage) log1) as [[newsData | e] log2] eqn:Hreq;
    cbn [fst].
  - match goal with
    | |- context [Home.fetchNewsBySource network ?s 1 ?w1] =>
        rewrite (fetchNewsBySource_loaded network s 1 w1 newsData log2 Hreq)
    end.
    run_page. intros [= <- _]. split; [discriminate |]. intros nd [= <-]. by cbn.
  - match goal with
    | |- context [Home.fetchNewsBySource network ?s 1 ?w1] =>
        rewrite (fetchNewsBySource_failed network s 1 w1 e log2 Hreq)
    end.
    run_page. intros [= <- _]. split; [| discriminate]. intros e' _. by cbn.
Qed.

Lemma fetchNewsFromSources_ingested_outcome_witness :
  api.fetchNewsFromSources ingest_only_network 15 (calls fresh_world)
  = (Normal sample_ingestion, [call_of (FetchNewsFromSources 15)])
  /\ fst (api.getNewsBySource ingest_only_network "bbc" 1 articlesPerPage
            [call_of (FetchNewsFromSources 15)])
     = Thrown (Error "Failed to fetch news from source: 500 Internal Server Error")
  /\ error (view (snd (Home.fetchNewsFromSources ingest_only_network
                         (view_with "" "bbc" 5) fresh_world))) = None
  /\ newsArticles (view (snd (Home.fetchNewsFromSources ingest_only_network
                                (view_with "" "bbc" 5) fresh_world))) = [].
Proof.
  assert (Hpost :
    api.fetchNewsFromSources ingest_only_network 15 (calls fresh_world)
    = (Normal sample_ingestion, [call_of (FetchNewsFromSources 15)]))
    by (vm_compute; reflexivity).
  assert (Hrefresh :
    fst (api.getNewsBySource ingest_only_network "bbc" 1 articlesPerPage
           [call_of (FetchNewsFromSources 15)])
    = Thrown (Error "Failed to fetch news from source: 500 Internal Server Error"))
    by (vm_compute; reflexivity).
  split; [exact Hpost |]. split; [exact Hrefresh |].
  destruct (fetchNewsFromSources_ingested_outcome ingest_only_network
              (view_with "" "bbc" 5) fresh_world _ _ Hpost)
    as (_ & Herror & _ & _ & Hfailed & _).
  split; [exact Herror |]. exact (proj1 (Hfailed _ Hrefresh)).
Defined.

(** X10.  [handlePageChange] to a page in [1..totalPages] makes that page
    current at once and issues exactly one request for it: [getNews] with
    the typed query, the page and the selected source when a query is
    typed, the page of the selected source (unscoped for "all") when the
    query is blank.  The page stays current even when the request
    rejects. *)
Theorem handlePageChange_in_range
    (network : forall s : Shape, nat -> HttpCall -> NetReply s)
    (rendered : View) (page : Z) (w : World) :
  1 <= page <= totalPages rendered ->
  let w' := snd (Home.handlePageChange network rendered page w) in
  currentPage (view w') = page
  /\ calls w'
     = calls w
       ++ [ call_of
              (if all_whitespace (searchQuery rendered)
               then (if String.eqb (selectedSource rendered) "all"
                     then GetNews None page articlesPerPage None
                     else GetNewsBySource (selectedSource rendered) page
                            articlesPerPage)
               else GetNews (Some (searchQuery rendered)) page articlesPerPage
                      (if String.eqb (selectedSource rendered) "all"
                       then None
                       else Some (selectedSource rendered))) ].
Proof.
  intros Hrange. cbv zeta.
  destruct (all_whitespace (searchQuery rendered)) eqn:Hblank.
  - destruct (handlePageChange_browse_run network rendered page w Hrange Hblank)
      as (v & Hrun & _ & Hpage).
    by rewrite Hrun.
  - rewrite (handlePageChange_query_run network rendered page w Hrange Hblank).
    pose proof (invoke_log network
                  (GetNews (Some (searchQuery rendered)) page articlesPerPage
                     (Home.source_filter rendered)) (calls w)) as Hlog.
    cbn [invoke] in Hlog. fold (Home.source_filter rendered).
    destruct (api.getNews network _ page articlesPerPage _ (calls w))
      as [[newsData | e] log1]; cbn [snd] in Hlog; subst log1; by cbn.
Qed.

Lemma handlePageChange_in_range_witness :
  1 <= 3 <= totalPages (view_with "denim" "bbc" 5)
  /\ currentPage (view (snd (Home.handlePageChange down_network
                               (view_with "denim" "bbc" 5) 3 fresh_world))) = 3
  /\ calls (snd (Home.handlePageChange down_network (view_with "denim" "bbc" 5) 3
                   fresh_world))
     = [ {| url := "http://localhost:8000/api/news";
            params := [("page", "3"); ("per_page", "10");
                       ("query", "denim"); ("source", "bbc")];
            init := no_options; abort_after := 45000 |} ].
Proof.
  assert (Hrange : 1 <= 3 <= totalPages (view_with "denim" "bbc" 5)) by (cbn; lia).
  split; [exact Hrange |].
  destruct (handlePageChange_in_range down_network (view_with "denim" "bbc" 5) 3
              fresh_world Hrange) as (Hpage & Hcalls).
  split; [exact Hpage |].
  etransitivity; [exact Hcalls |]. vm_compute. reflexivity.
Defined.

(** X11.  Paging through search results replaces the articles only.  For
    a page in range and a typed query, [handlePageChange] never changes
    [totalPages] or [totalArticles]; when the request resolves it stores
    the articles of the response and leaves the error as it was (an
    earlier error is not cleared); when it rejects it keeps the articles
    and sets the error to "Failed to fetch news. Please try again.". *)
Theorem handlePageChange_search_results
    (network : forall s : Shape, nat -> HttpCall -> NetReply s)
    (rendered : View) (page : Z) (w : World) :
  1 <= page <= totalPages rendered ->
  all_whitespace (searchQuery rendered) = false ->
  let request :=
    api.getNews network (Some (searchQuery rendered)) page articlesPerPage
      (if String.eqb (selectedSource rendered) "all"
       then None
       else Some (selectedSource rendered)) (calls w) in
  let w' := snd (Home.handlePageChange network rendered page w) in
  totalPages (view w') = totalPages (view w)
  /\ totalArticles (view w') = totalArticles (view w)
  /\ (forall newsData : NewsResponse.t,
        fst request = Normal newsData ->
        newsArticles (view w') = NewsResponse.articles newsData
        /\ error (view w') = error (view w))
  /\ (forall e : JsObject,
        fst request = Thrown e ->
        newsArticles (view w') = newsArticles (view w)
        /\ error (view w') = Some "Failed to fetch news. Please try again.").
Proof.
  intros Hrange Hquery. cbv zeta.
  rewrite (handlePageChange_query_run network rendered page w Hrange Hquery).
  fold (Home.source_filter rendered).
  destruct (api.getNews network _ page articlesPerPage _ (calls w))
    as [[newsData | e] log1]; cbn [fst snd view totalPages totalArticles];
    (split; [done |]); (split; [done |]).
  - split; [| discriminate]. intros nd [= <-]. by cbn.
  - split; [discriminate |]. intros e' _. by cbn.
Qed.

Lemma handlePageChange_search_results_witness :
  1 <= 2 <= totalPages (view_with "denim" "all" 5)
  /\ all_whitespace (searchQuery (view_with "denim" "all" 5)) = false
  /\ fst (api.getNews healthy_network (Some "denim") 2 articlesPerPage None
            (calls fresh_world)) = Normal sample_news
  /\ totalPages (view (snd (Home.handlePageChange healthy_network
                              (view_with "denim" "all" 5) 2 fresh_world)))
     = totalPages (view fresh_world)
  /\ newsArticles (view (snd (Home.handlePageChange healthy_network
                                (view_with "denim" "all" 5) 2 fresh_world)))
     = sample_articles.
Proof.
  assert (Hrange : 1 <= 2 <= totalPages (view_with "denim" "all" 5)) by (cbn; lia).
  assert (Hquery : all_whitespace (searchQuery (view_with "denim" "all" 5)) = false)
    by reflexivity.
  assert (Hreq :
    fst (api.getNews healthy_network (Some "denim") 2 articlesPerPage None
           (calls fresh_world)) = Normal sample_news) by (vm_compute; reflexivity).
  split; [exact Hrange |]. split; [exact Hquery |]. split; [exact Hreq |].
  destruct (handlePageChange_search_results healthy_network
              (view_with "denim" "all" 5) 2 fresh_world Hrange Hquery)
    as (Hpages & _ & Hloaded & _).
  split; [exact Hpages |]. exact (proj1 (Hloaded _ Hreq)).
Defined.

(** X12.  [handleSearch] with a typed query always ends on page 1.  When
    its request resolves it stores the articles and the total of the
    response and the number of pages computed from that total, and leaves
    the error as it was (an earlier error is not cleared); when the request
    rejects it keeps the articles and the totals and sets the error to
    "Failed to search news. Please try again.". *)
Theorem handleSearch_outcome
    (network : forall s : Shape, nat -> HttpCall -> NetReply s)
    (rendered : View) (w : World) :
  all_whitespace (searchQuery rendered) = false ->
  let request :=
    api.getNews network (Some (searchQuery rendered)) 1 articlesPerPage
      (if String.eqb (selectedSource rendered) "all"
       then None
       else Some (selectedSource rendered)) (calls w) in
  let w' := snd (Home.handleSearch network rendered w) in
  currentPage (view w') = 1
  /\ (forall newsData : NewsResponse.t,
        fst request = Normal newsData ->
        newsArticles (view w') = NewsResponse.articles newsData
        /\ totalArticles (view w') = NewsResponse.total newsData
        /\ totalPages (view w') = ceil_div (NewsResponse.total newsData) articlesPerPage
        /\ error (view w') = error (view w))
  /\ (forall e : JsObject,
        fst request = Thrown e ->
        newsArticles (view w') = newsArticles (view w)
        /\ totalArticles (view w') = totalArticles (view w)
        /\ totalPages (view w') = totalPages (view w)
        /\ error (view w') = Some "Failed to search news. Please try again.").
Proof.
  intros Hquery. cbv zeta.
  rewrite (handleSearch_query_run network rendered w Hquery).
  fold (Home.source_filter rendered).
  destruct (api.getNews network _ 1 articlesPerPage _ (calls w))
    as [[newsData | e] log1]; cbn [fst snd view currentPage];
    (split; [done |]).
  - split; [| discriminate]. intros nd [= <-]. by cbn.
  - split; [discriminate |]. intros e' _. by cbn.
Qed.

Lemma handleSearch_outcome_witness :
  all_whitespace (searchQuery (view_with "denim" "all" 5)) = false
  /\ fst (api.getNews down_network (Some "denim") 1 articlesPerPage None
            (calls fresh_world))
     = Thrown (Error "Failed to fetch news: 503 Service Unavailable")
  /\ error (view (snd (Home.handleSearch down_network (view_with "denim" "all" 5)
                         fresh_world)))
     = Some "Failed to search news. Please try again."
  /\ fst (api.getNews healthy_network (Some "denim") 1 articlesPerPage None
            (calls fresh_world)) = Normal sample_news
  /\ totalPages (view (snd (Home.handleSearch healthy_network
                              (view_with "denim" "all" 5) fresh_world))) = 5.
Proof.
  assert (Hquery : all_whitespace (searchQuery (view_with "denim" "all" 5)) = false)
    by reflexivity.
  assert (Hdown :
    fst (api.getNews down_network (Some "denim") 1 articlesPerPage None
           (calls fresh_world))
    = Thrown (Error "Failed to fetch news: 503 Service Unavailable"))
    by (vm_compute; reflexivity).
  assert (Hup :
    fst (api.getNews healthy_network (Some "denim") 1 articlesPerPage None
           (calls fresh_world)) = Normal sample_news) by (vm_compute; reflexivity).
  destruct (handleSearch_outcome down_network (view_with "denim" "all" 5)
              fresh_world Hquery) as (_ & _ & Hfailed).
  destruct (handleSearch_outcome healthy_network (view_with "denim" "all" 5)
              fresh_world Hquery) as (_ & Hloaded & _).
  split; [exact Hquery |]. split; [exact Hdown |].
  split; [exact (proj2 (proj2 (proj2 (Hfailed _ Hdown)))) |].
  split; [exact Hup |].
  exact (proj1 (proj2 (proj2 (Hloaded _ Hup)))).
Defined.

(** X13.  When the [getNews] request of [fetchNews] rejects, no enrichment
    is attempted: that request is the only call, the articles, the totals
    and the current page stay as they were, [loading] is cleared and the
    error is "Failed to fetch news. Please try again.". *)
Theorem fetchNews_rejected
    (network : forall s : Shape, nat -> HttpCall -> NetReply s)
    (query : option string) (page : Z) (w : World)
    (e : JsObject) (log1 : list HttpCall) :
  api.getNews network query page articlesPerPage None (calls w) = (Thrown e, log1) ->
  let w' := snd (Home.fetchNews network query page w) in
  calls w' = calls w ++ [call_of (GetNews query page articlesPerPage None)]
  /\ error (view w') = Some "Failed to fetch news. Please try again."
  /\ loading (view w') = false
  /\ newsArticles (view w') = newsArticles (view w)
  /\ totalArticles (view w') = totalArticles (view w)
  /\ totalPages (view w') = totalPages (view w)
  /\ currentPage (view w') = currentPage (view w).
Proof.
  intros Hnews. cbv zeta.
  rewrite (fetchNews_failed network query page w e log1 Hnews).
  pose proof (invoke_log network (GetNews query page articlesPerPage None) (calls w))
    as Hlog.
  cbn [invoke] in Hlog. rewrite Hnews in Hlog. cbn [snd] in Hlog.
  cbn. by rewrite Hlog.
Qed.

Lemma fetchNews_rejected_witness :
  api.getNews slow_network None 1 articlesPerPage None (calls fresh_world)
  = (Thrown (Error "Request timeout after 45000ms"),
     [call_of (GetNews None 1 articlesPerPage None)])
  /\ calls (snd (Home.fetchNews slow_network None 1 fresh_world))
     = [call_of (GetNews None 1 articlesPerPage None)]
  /\ error (view (snd (Home.fetchNews slow_network None 1 fresh_world)))
     = Some "Failed to fetch news. Please try again.".
Proof.
  assert (Hnews :
    api.getNews slow_network None 1 articlesPerPage None (calls fresh_world)
    = (Thrown (Error "Request timeout after 45000ms"),
       [call_of (GetNews None 1 articlesPerPage None)])) by (vm_compute; reflexivity).
  split; [exact Hnews |].
  destruct (fetchNews_rejected slow_network None 1 fresh_world _ _ Hnews)
    as (Hcalls & Herror & _).
  split; [exact Hcalls | exact Herror].
Defined.

(* ================================================================== *)
(** * Further properties of the pagination bar and the formatters      *)
(* ================================================================== *)

Lemma pageNum_offset (currentPage totalPages i : Z) :
  Home.pageNum currentPage totalPages i = Home.pageNum currentPage totalPages 0 + i.
Proof.
  unfold Home.pageNum.
  destruct (totalPages <=? 5); [lia |].
  destruct (currentPage <=? 3); [lia |].
  destruct (totalPages - 2 <=? currentPage); lia.
Qed.

Lemma pageNumbers_consecutive (currentPage totalPages : Z) :
  Home.pageNumbers currentPage totalPages
  = seqZ (Home.pageNum currentPage totalPages 0) (Z.min 5 totalPages).
Proof.
  unfold Home.pageNumbers.
  rewrite <- (Z.add_0_r (Home.pageNum currentPage totalPages 0)).
  rewrite <- fmap_add_seqZ. apply map_ext. intros i. apply pageNum_offset.
Qed.

Lemma pageNumbers_elem (currentPage totalPages p : Z) :
  p ∈ Home.pageNumbers currentPage totalPages
  <-> Home.pageNum currentPage totalPages 0 <= p
      < Home.pageNum currentPage totalPages 0 + Z.min 5 totalPages.
Proof. rewrite pageNumbers_consecutive. apply elem_of_seqZ. Qed.

(** X14.  Every button of the page-number window carries a page in
    [1..totalPages], whatever the current page is; so a click on any of
    them passes the guard of [handlePageChange] and makes that page the
    current one. *)
Theorem page_buttons_in_range
    (network : forall s : Shape, nat -> HttpCall -> NetReply s)
    (rendered : View) (w : World) (p : Z) :
  p ∈ Home.pageNumbers (currentPage rendered) (totalPages rendered) ->
  1 <= p <= totalPages rendered
  /\ currentPage (view (snd (Home.handlePageChange network rendered p w))) = p.
Proof.
  intros Hin. apply pageNumbers_elem in Hin.
  assert (Hrange : 1 <= p <= totalPages rendered).
  { revert Hin. unfold Home.pageNum.
    destruct (Z.leb_spec (totalPages rendered) 5);
      [lia |].
    destruct (Z.leb_spec (currentPage rendered) 3); [lia |].
    destruct (Z.leb_spec (totalPages rendered - 2) (currentPage rendered)); lia. }
  split; [exact Hrange |].
  destruct (handlePageChange_settles network rendered p w) as (w' & -> & Hstate).
  by destruct (Hstate Hrange) as (_ & Hpage & _).
Qed.

Lemma page_buttons_in_range_witness :
  4 ∈ Home.pageNumbers (currentPage (view_with "" "all" 12))
        (totalPages (view_with "" "all" 12))
  /\ 1 <= 4 <= totalPages (view_with "" "all" 12)
  /\ currentPage (view (snd (Home.handlePageChange down_network
                               (view_with "" "all" 12) 4 fresh_world))) = 4.
Proof.
  assert (Hin : 4 ∈ Home.pageNumbers (currentPage (view_with "" "all" 12))
                  (totalPages (view_with "" "all" 12))).
  { apply pageNumbers_elem. vm_compute. split; [discriminate | reflexivity]. }
  split; [exact Hin |].
  exact (page_buttons_in_range down_network (view_with "" "all" 12) fresh_world 4 Hin).
Defined.




(** X17.  With the current page in range, a "Previous" or "Next" button
    that is not disabled asks for a page in [1..totalPages], so the click
    moves to that page; "Previous" is disabled exactly on page 1 and
    "Next" exactly on the last page. *)
Theorem previous_next_in_range
    (network : forall s : Shape, nat -> HttpCall -> NetReply s)
    (rendered : View) (w : World) :
  1 <= currentPage rendered <= totalPages rendered ->
  (Home.previous_disabled (currentPage rendered) = false ->
   1 <= Home.previous_target (currentPage rendered) <= totalPages rendered
   /\ currentPage (view (snd (Home.handlePageChange network rendered
                                (Home.previous_target (currentPage rendered)) w)))
      = currentPage rendered - 1)
  /\ (Home.next_disabled (currentPage rendered) (totalPages rendered) = false ->
      1 <= Home.next_target (currentPage rendered) <= totalPages rendered
      /\ currentPage (view (snd (Home.handlePageChange network rendered
                                   (Home.next_target (currentPage rendered)) w)))
         = currentPage rendered + 1)
  /\ (Home.previous_disabled (currentPage rendered) = true
      <-> currentPage rendered = 1)
  /\ (Home.next_disabled (currentPage rendered) (totalPages rendered) = true
      <-> currentPage rendered = totalPages rendered).
Proof.
  intros Hrange.
  unfold Home.previous_disabled, Home.next_disabled, Home.previous_target,
    Home.next_target.
  split; [| split; [| split; apply Z.eqb_eq]].
  - intros Hprev. apply Z.eqb_neq in Hprev.
    assert (Hin : 1 <= currentPage rendered - 1 <= totalPages rendered) by lia.
    split; [exact Hin |].
    destruct (handlePageChange_settles network rendered (currentPage rendered - 1) w)
      as (w' & -> & Hstate).
    by destruct (Hstate Hin) as (_ & Hpage & _).
  - intros Hnext. apply Z.eqb_neq in Hnext.
    assert (Hin : 1 <= currentPage rendered + 1 <= totalPages rendered) by lia.
    split; [exact Hin |].
    destruct (handlePageChange_settles network rendered (currentPage rendered + 1) w)
      as (w' & -> & Hstate).
    by destruct (Hstate Hin) as (_ & Hpage & _).
Qed.

Lemma previous_next_in_range_witness :
  1 <= currentPage (view_with "" "all" 12) <= totalPages (view_with "" "all" 12)
  /\ Home.next_disabled (currentPage (view_with "" "all" 12))
       (totalPages (view_with "" "all" 12)) = false
  /\ currentPage (view (snd (Home.handlePageChange down_network
                               (view_with "" "all" 12)
                               (Home.next_target (currentPage (view_with "" "all" 12)))
                               fresh_world))) = 1 + 1.
Proof.
  assert (Hrange : 1 <= currentPage (view_with "" "all" 12)
                   <= totalPages (view_with "" "all" 12)) by (cbn; lia).
  assert (Hnext : Home.next_disabled (currentPage (view_with "" "all" 12))
                    (totalPages (view_with "" "all" 12)) = false) by reflexivity.
  split; [exact Hrange |]. split; [exact Hnext |].
  destruct (previous_next_in_range down_network (view_with "" "all" 12) fresh_world
              Hrange) as (_ & Hgo & _).
  exact (proj2 (Hgo Hnext)).
Defined.

(** X18.  The line "Showing a to b of n articles" names a real range.
    With [n > 0] articles and the current page within the
    [ceil(n / 10)] pages, [1 <= a <= b <= n]; the range holds at most ten
    articles, exactly ten on every page but the last, and ends at [n] on
    the last page. *)
Theorem page_info_range (currentPage totalArticles : Z) :
  0 < totalArticles ->
  1 <= currentPage <= ceil_div totalArticles articlesPerPage ->
  let a := Home.showing_from currentPage in
  let b := Home.showing_to currentPage totalArticles in
  Home.page_info_shown totalArticles = true
  /\ 1 <= a <= b
  /\ b <= totalArticles
  /\ b - a + 1 <= 10
  /\ (currentPage < ceil_div totalArticles articlesPerPage -> b - a + 1 = 10)
  /\ (currentPage = ceil_div totalArticles articlesPerPage -> b = totalArticles).
Proof.
  intros Htotal Hrange. cbv zeta.
  pose proof (ceil_div_bounds totalArticles) as Hceil.
  unfold Home.page_info_shown, Home.showing_from, Home.showing_to in *.
  unfold articlesPerPage in *.
  split; [apply Z.ltb_lt; lia |]. lia.
Qed.

Lemma page_info_range_witness :
  0 < 47 /\ 1 <= 5 <= ceil_div 47 articlesPerPage
  /\ Home.showing_from 5 = 41 /\ Home.showing_to 5 47 = 47.
Proof.
  assert (Htotal : 0 < 47) by lia.
  assert (Hrange : 1 <= 5 <= ceil_div 47 articlesPerPage) by (vm_compute; split; discriminate).
  split; [exact Htotal |]. split; [exact Hrange |].
  destruct (page_info_range 5 47 Htotal Hrange) as (_ & _ & _ & _ & _ & Hlast).
  split; [reflexivity | exact (Hlast eq_refl)].
Defined.

(** X19.  [formatTimeAgo] sorts the age of an article into three
    buckets.  Less than an hour (a date in the future included) reads
    "Just now"; from one hour up to a day it reads "[h] hours ago" with
    [h] the whole hours elapsed, between 1 and 23; from a day on it reads
    "[d] days ago" with [d] the whole days elapsed, at least 1.  A date
    string that cannot be parsed reads "NaN days ago". *)
Theorem formatTimeAgo_buckets (now t : Z) :
  let age := now - t in
  (age < 3600000 -> Home.formatTimeAgo now (Some t) = "Just now")
  /\ (3600000 <= age < 86400000 ->
      exists h : Z,
        1 <= h < 24
        /\ h * 3600000 <= age < (h + 1) * 3600000
        /\ Home.formatTimeAgo now (Some t) = pretty h +:+ " hours ago")
  /\ (86400000 <= age ->
      exists d : Z,
        1 <= d
        /\ d * 86400000 <= age < (d + 1) * 86400000
        /\ Home.formatTimeAgo now (Some t) = pretty d +:+ " days ago")
  /\ Home.formatTimeAgo now None = "NaN days ago".
Proof.
  cbv zeta. unfold Home.formatTimeAgo.
  cbn [js_sub js_floor_div js_lt js_toString].
  change (1000 * 60 * 60) with 3600000.
  pose proof (Z.div_mod (now - t) 3600000 ltac:(lia)) as Hh.
  pose proof (Z.mod_pos_bound (now - t) 3600000 ltac:(lia)) as Hhr.
  pose proof (Z.div_mod (now - t) 86400000 ltac:(lia)) as Hd.
  pose proof (Z.mod_pos_bound (now - t) 86400000 ltac:(lia)) as Hdr.
  assert (Hdays : (now - t) / 3600000 / 24 = (now - t) / 86400000)
    by (rewrite Z.div_div by lia; reflexivity).
  split; [| split; [| split; [| reflexivity]]].
  - intros Hage.
    replace ((now - t) / 3600000 <? 1) with true; [done |].
    symmetry. apply Z.ltb_lt. lia.
  - intros Hage. exists ((now - t) / 3600000).
    replace ((now - t) / 3600000 <? 1) with false
      by (symmetry; apply Z.ltb_ge; lia).
    replace ((now - t) / 3600000 <? 24) with true
      by (symmetry; apply Z.ltb_lt; lia).
    split; [lia |]. split; [lia | reflexivity].
  - intros Hage. exists ((now - t) / 86400000).
    replace ((now - t) / 3600000 <? 1) with false
      by (symmetry; apply Z.ltb_ge; lia).
    replace ((now - t) / 3600000 <? 24) with false
      by (symmetry; apply Z.ltb_ge; lia).
    rewrite Hdays. split; [lia |]. split; [lia | reflexivity].
Qed.

Lemma formatTimeAgo_buckets_witness :
  (1000 - 5000 < 3600000 /\ Home.formatTimeAgo 1000 (Some 5000) = "Just now")
  /\ (3600000 <= 8000000 - 0 < 86400000
      /\ exists h : Z,
           1 <= h < 24
           /\ h * 3600000 <= 8000000 - 0 < (h + 1) * 3600000
           /\ Home.formatTimeAgo 8000000 (Some 0) = pretty h +:+ " hours ago")
  /\ (86400000 <= 200000000 - 0
      /\ exists d : Z,
           1 <= d
           /\ d * 86400000 <= 200000000 - 0 < (d + 1) * 86400000
           /\ Home.formatTimeAgo 200000000 (Some 0) = pretty d +:+ " days ago").
Proof.
  assert (H1 : 1000 - 5000 < 3600000) by lia.
  assert (H2 : 3600000 <= 8000000 - 0 < 86400000) by lia.
  assert (H3 : 86400000 <= 200000000 - 0) by lia.
  split; [split; [exact H1 |] | split; [split; [exact H2 |] | split; [exact H3 |]]].
  - exact (proj1 (formatTimeAgo_buckets 1000 5000) H1).
  - exact (proj1 (proj2 (formatTimeAgo_buckets 8000000 0)) H2).
  - exact (proj1 (proj2 (proj2 (formatTimeAgo_buckets 200000000 0))) H3).
Defined.

Lemma toLowerCase_unit_idempotent (c : Ascii.ascii) :
  toLowerCase_unit (toLowerCase_unit c) = toLowerCase_unit c.
Proof. destruct c as [[] [] [] [] [] [] [] []]; reflexivity. Qed.

Lemma toLowerCase_idempotent (s : string) :
  toLowerCase (toLowerCase s) = toLowerCase s.
Proof.
  induction s as [| c s IH]; [done |].
  cbn [toLowerCase]. by rewrite toLowerCase_unit_idempotent, IH.
Qed.

(** X20.  [getSentimentColor] and [getSentimentLabel] always agree, and
    neither looks at the case of the letters.  A sentiment that reads
    "positive" in lower case is green and "Positive", one that reads
    "negative" is red and "Negative", and every other string (the empty
    one included) is yellow and "Neutral"; lowering the case of the
    argument first changes neither result. *)
Theorem sentiment_classification (sentiment : string) :
  ((toLowerCase sentiment = "positive"
    /\ Home.getSentimentColor sentiment = "text-green-600"
    /\ Home.getSentimentLabel sentiment = "Positive")
   \/ (toLowerCase sentiment = "negative"
       /\ Home.getSentimentColor sentiment = "text-red-600"
       /\ Home.getSentimentLabel sentiment = "Negative")
   \/ (toLowerCase sentiment <> "positive"
       /\ toLowerCase sentiment <> "negative"
       /\ Home.getSentimentColor sentiment = "text-yellow-600"
       /\ Home.getSentimentLabel sentiment = "Neutral"))
  /\ Home.getSentimentColor (toLowerCase sentiment) = Home.getSentimentColor sentiment
  /\ Home.getSentimentLabel (toLowerCase sentiment) = Home.getSentimentLabel sentiment.
Proof.
  unfold Home.getSentimentColor, Home.getSentimentLabel. cbv zeta.
  rewrite toLowerCase_idempotent. split; [| done].
  destruct (String.eqb_spec (toLowerCase sentiment) "positive") as [Hpos | Hpos].
  - left. by rewrite Hpos.
  - destruct (String.eqb_spec (toLowerCase sentiment) "negative") as [Hneg | Hneg].
    + right; left. by rewrite Hneg.
    + right; right. done.
Qed.

(** Some values of the formatters. *)
Example formatTimeAgo_two_hours :
  Home.formatTimeAgo 8000000 (Some 0) = "2 hours ago".
Proof. by vm_compute. Qed.

Example formatTimeAgo_one_hour :
  Home.formatTimeAgo 3600000 (Some 0) = "1 hours ago".
Proof. by vm_compute. Qed.

Example formatTimeAgo_two_days :
  Home.formatTimeAgo 200000000 (Some 0) = "2 days ago".
Proof. by vm_compute. Qed.

Example getSentimentColor_upper_case :
  Home.getSentimentColor "POSITIVE" = "text-green-600"
  /\ Home.getSentimentLabel "Negative" = "Negative"
  /\ Home.getSentimentLabel "" = "Neutral".
Proof. by vm_compute. Qed.
